(** * Labelled image preparation: the alignment and assembly engine

    A shallow embedding of [data_to_labelled_img] from
    [utils/labelled_image_preparation.py], and the properties of its
    window guard, label encoding, index alignment, strategy dispatch and
    image stacking.

    Conventions of the embedding.
    - Python integers are [Z]; the true division [label_window_size/2] is a
      rational ([Q]), on which [np.ceil] and [np.int] act (a double carries
      [L/2] exactly for every window size below 2^53).
    - One-dimensional arrays are lists, sliced with Python's rules for
      negative and out-of-range bounds.
    - [print] is modelled by the list of lines written to standard output;
      an exception by the [Raise] outcome.
    - [np.int] is the builtin [int], as in the numpy releases that have it;
      the [Strategy] column is a column of plain strings, for which
      [pd.get_dummies] makes one indicator column per distinct value, in
      sorted order; images are lists of rows, image arrays lists of images.
    - The labeller, the four transforms and the float arithmetic of the
      returns are collaborators outside this module: they are fields of the
      record [externals], over which every definition is parameterised. *)

From Stdlib Require Import ZArith QArith Qround List Ascii Bool Lia.
From Stdlib Require String.
From stdpp Require Import base option list strings gmap.

Local Close Scope Q_scope.
Local Open Scope list_scope.
Local Open Scope Z_scope.

(** ** Outcomes of Python code *)

Inductive exn : Type :=
| KeyError (missing : list string)
| NameError (name : string)
| TypeError (msg : string)
| ValueError (msg : string)
| ExternalError (source : string).

Inductive outcome (A : Type) : Type :=
| Ok (a : A)
| Raise (e : exn).

Arguments Ok {A} a.
Arguments Raise {A} e.

Definition obind {A B : Type} (m : outcome A) (k : A -> outcome B) : outcome B :=
  match m with
  | Ok a => k a
  | Raise e => Raise e
  end.

Notation "'do' x '<-' m ';' k" := (obind m (fun x => k))
  (at level 10, x name, m at level 100, k at level 200).

(** Sequencing of a list of computations, left to right: the first
    exception ends the loop. *)
Fixpoint omapM {A B : Type} (f : A -> outcome B) (l : list A) : outcome (list B) :=
  match l with
  | [] => Ok []
  | a :: l' => do b <- f a; do bs <- omapM f l'; Ok (b :: bs)
  end.

(** ** Window arithmetic *)

(** [label_window_size/2], Python 3 true division. *)
Definition true_div2 (L : Z) : Q := Qdiv (inject_Z L) (inject_Z 2).

(** [np.ceil] on a float, read back as an integer for the comparison. *)
Definition np_ceil (q : Q) : Z := Qceiling q.

(** [np.int], the builtin [int]: truncation towards zero. *)
Definition np_int (q : Q) : Z :=
  if Qle_bool 0 q then Qfloor q else Qceiling q.

(** The guard of line 85. *)
Definition window_too_small (L W : Z) : bool := W <? np_ceil (true_div2 L).

(** [np.int(label_window_size/2)], the half window. *)
Definition half_window (L : Z) : Z := np_int (true_div2 L).

(** ** Python slices *)

(** A slice bound brought into [0, len]: a negative bound counts from the
    end, and both directions saturate. *)
Definition clamp_index (len i : Z) : Z :=
  if i <? 0 then Z.max (i + len) 0 else Z.min i len.

(** [l[start:stop]] with both bounds given. *)
Definition py_slice {A : Type} (l : list A) (start stop : Z) : list A :=
  let len := Z.of_nat (length l) in
  let a := clamp_index len start in
  let b := clamp_index len stop in
  firstn (Z.to_nat (b - a)) (skipn (Z.to_nat a) l).

(** [l[:stop]] and [l[start:]]. *)
Definition py_slice_to {A : Type} (l : list A) (stop : Z) : list A :=
  py_slice l 0 stop.

Definition py_slice_from {A : Type} (l : list A) (start : Z) : list A :=
  py_slice l start (Z.of_nat (length l)).

(** The mathematical half-open range [lo, hi) of a list, indices counted
    from zero: what a specification means by "the slice from lo to hi". *)
Definition range_of {A : Type} (l : list A) (lo hi : nat) : list A :=
  firstn (hi - lo) (skipn lo l).

(** ** Strings: membership tests and the names [eval] resolves *)

(** [p in s] for two strings: substring search. *)
Fixpoint is_substring (p s : string) : bool :=
  String.prefix p s ||
  match s with
  | EmptyString => false
  | String _ s' => is_substring p s'
  end.

Definition is_blank (c : ascii) : bool :=
  match c with
  | " "%char | "009"%char => true
  | _ => false
  end.

Definition is_letter (c : ascii) : bool :=
  let n := N_of_ascii c in
  ((65 <=? n) && (n <=? 90) || (97 <=? n) && (n <=? 122) || (n =? 95))%N.

Definition is_digit (c : ascii) : bool :=
  let n := N_of_ascii c in ((48 <=? n) && (n <=? 57))%N.

Fixpoint all_chars (p : ascii -> bool) (s : string) : bool :=
  match s with
  | EmptyString => true
  | String c s' => p c && all_chars p s'
  end.

(** An ASCII Python identifier. *)
Definition is_identifier (s : string) : bool :=
  match s with
  | EmptyString => false
  | String c s' => is_letter c && all_chars (fun d => is_letter d || is_digit d) s'
  end.

(** Trailing spaces and tabs, which the tokenizer ignores. *)
Fixpoint rstrip (s : string) : string :=
  match s with
  | EmptyString => EmptyString
  | String c s' =>
      match rstrip s' with
      | EmptyString => if is_blank c then EmptyString else String c EmptyString
      | t => String c t
      end
  end.

(** A strategy name made of letters, digits and underscores only, so that
    ["images_" + name] is a plain variable name. *)
Definition plain_name (s : string) : bool :=
  all_chars (fun d => is_letter d || is_digit d) s.

(** ** Label encoding (pandas) *)

Fixpoint insert_sorted (s : string) (l : list string) : list string :=
  match l with
  | [] => [s]
  | x :: l' =>
      match String.compare s x with
      | Lt => s :: l
      | Eq => l
      | Gt => x :: insert_sorted s l'
      end
  end.

(** The levels of a column of strings: its distinct values, sorted. *)
Definition sorted_levels (col : list string) : list string :=
  foldr insert_sorted [] col.

(** A frame of indicator columns. *)
Record frame : Type := mkFrame {
  columns : list string;
  frame_rows : list (list bool)
}.

(** [pd.get_dummies] on a column of strings: one indicator column per
    level, in sorted order. *)
Definition get_dummies (col : list string) : frame :=
  let levels := sorted_levels col in
  {| columns := levels;
     frame_rows := map (fun v => map (String.eqb v) levels) col |}.

Fixpoint col_index (name : string) (cols : list string) : option nat :=
  match cols with
  | [] => None
  | c :: cols' =>
      if String.eqb c name then Some O
      else option_map S (col_index name cols')
  end.

Definition cell (cols : list string) (row : list bool) (name : string) : bool :=
  match col_index name cols with
  | Some i => nth i row false
  | None => false
  end.

Definition has_column (cols : list string) (name : string) : bool :=
  match col_index name cols with
  | Some _ => true
  | None => false
  end.

(** [df[[n1, n2, ...]]]: the named columns in the order asked for; a name
    that is no column raises [KeyError]. *)
Definition select_columns (df : frame) (names : list string) : outcome frame :=
  match List.filter (fun n => negb (has_column (columns df) n)) names with
  | [] =>
      Ok {| columns := names;
            frame_rows := map (fun row => map (cell (columns df) row) names)
                              (frame_rows df) |}
  | missing => Raise (KeyError missing)
  end.

(** ** Arrays *)

(** A two-dimensional array: the column count is kept apart from the rows,
    so that an array without rows still has its shape. *)
Record array2 (A : Type) : Type := mkArray2 {
  ncols : nat;
  arows : list (list A)
}.

Arguments mkArray2 {A} ncols arows.
Arguments ncols {A} a.
Arguments arows {A} a.

Definition shape2 {A : Type} (a : array2 A) : list nat :=
  [length (arows a); ncols a].

(** [np.array(dummies)], three columns wide after the column selection. *)
Definition frame_to_array (df : frame) : array2 bool :=
  {| ncols := length (columns df); arows := frame_rows df |}.

(** [a[start:stop, :]] *)
Definition slice_rows {A : Type} (a : array2 A) (start stop : Z) : array2 A :=
  {| ncols := ncols a; arows := py_slice (arows a) start stop |}.

(** [v.reshape((-1, 1))] of a one-dimensional array. *)
Definition reshape_column {A : Type} (v : list A) : array2 A :=
  {| ncols := 1; arows := map (fun x => [x]) v |}.

(** [np.argwhere(cols == name)]: the positions holding [name]. *)
Fixpoint argwhere_from (i : Z) (cols : list string) (name : string) : list Z :=
  match cols with
  | [] => []
  | c :: cols' =>
      (if String.eqb c name then [i] else []) ++ argwhere_from (i + 1) cols' name
  end.

Definition argwhere (cols : list string) (name : string) : list Z :=
  argwhere_from 0 cols name.

(** [np.int] of an array: defined for exactly one element. *)
Definition np_int_array (a : list Z) : outcome Z :=
  match a with
  | [i] => Ok i
  | _ => Raise (TypeError "only size-1 arrays can be converted to Python scalars")
  end.

(** ** Stacking along a trailing axis *)

Fixpoint zip_cons {A : Type} (x : list A) (acc : list (list A)) : list (list A) :=
  match x, acc with
  | a :: x', r :: acc' => (a :: r) :: zip_cons x' acc'
  | _, _ => []
  end.

(** The transpose of a non-empty list of equally long lists. *)
Fixpoint transpose {A : Type} (ll : list (list A)) : list (list A) :=
  match ll with
  | [] => []
  | x :: rest =>
      match rest with
      | [] => map (fun a => [a]) x
      | _ :: _ => zip_cons x (transpose rest)
      end
  end.

(** [np.moveaxis(a, 0, -1)] for [a] of shape (k, n, H, W): the result has
    shape (n, H, W, k) and [result[i][r][c][ch] = a[ch][i][r][c]]. *)
Definition moveaxis_first_to_last {A : Type}
    (a : list (list (list (list A)))) : list (list (list (list A))) :=
  map (fun per_image => map transpose (transpose per_image)) (transpose a).

(** The shape (n, H, W) of a list of images, when it has one. *)
Definition image_dims {A : Type} (img : list (list A)) : nat * nat :=
  (length img, length (hd [] img)).

Definition regular_image {A : Type} (hw : nat * nat) (img : list (list A)) : bool :=
  (length img =? fst hw)%nat && forallb (fun row => (length row =? snd hw)%nat) img.

Definition shape3 {A : Type} (a : list (list (list A))) : option (nat * (nat * nat)) :=
  let hw := image_dims (hd [] a) in
  if forallb (regular_image hw) a then Some (length a, hw) else None.

Definition same_shape {A : Type} (s : nat * (nat * nat))
    (a : list (list (list A))) : bool :=
  (length a =? fst s)%nat && forallb (regular_image (snd s)) a.

(** ** The collaborators *)

(** What this module imports and what Python and numpy do outside the
    fragment embedded here.
    - [num] are the series values and [pixel] the image entries (floats).
    - [local_min_max] returns the labelled table, one row [(Series,
      Strategy)] per line; its other three results are not used.
    - [GASF], [GADF], [RP] and [MTF] return one image per window.
    - [simple_return cur prev] is [cur/prev - 1].
    - [eval_expression] is [eval] on a source text that is not a plain
      variable name, and [pyobj] the values such a text can denote besides
      image arrays.
    - [stack_irregular] is [np.array(np.moveaxis(images, 0, -1))] on a list
      that is not made of image arrays of one common shape, which numpy
      releases treat differently. *)
Record externals : Type := mkExternals {
  num : Type;
  pixel : Type;
  pyobj : Type;
  local_min_max : list num -> Z -> outcome (list (num * string));
  GASF : list num -> Z -> bool -> outcome (list (list (list pixel)));
  GADF : list num -> Z -> bool -> outcome (list (list (list pixel)));
  RP : list num -> Z -> Z -> bool -> outcome (list (list (list pixel)));
  MTF : list num -> Z -> Z -> outcome (list (list (list pixel)));
  simple_return : num -> num -> num;
  eval_expression :
    gmap string (list (list (list pixel))) -> string ->
    outcome (list (list (list pixel)) + pyobj);
  stack_irregular :
    list (list (list (list pixel)) + pyobj) ->
    outcome (list (list (list (list pixel))) + pyobj)
}.

(** [image_trf_strat]: one strategy name or a list of names. *)
Inductive selection : Type :=
| Str (s : string)
| Lst (l : list string).

(** [name in image_trf_strat]: substring search in a string, membership
    in a list. *)
Definition sel_contains (name : string) (sel : selection) : bool :=
  match sel with
  | Str s => is_substring name s
  | Lst l => existsb (String.eqb name) l
  end.

Definition sel_len (sel : selection) : Z :=
  match sel with
  | Str s => Z.of_nat (String.length s)
  | Lst l => Z.of_nat (length l)
  end.


(** ** The function *)

(** What [data_to_labelled_img] returns: the empty tuple [()] of its two
    early returns, or the five results. [images] is [np.array(images)]: a
    single strategy's array, a channels-last stack, or whatever else the
    evaluated text denoted. *)
Inductive tensor (X : externals) : Type :=
| Single (a : list (list (list (pixel X))))
| Stacked (t : list (list (list (list (pixel X)))))
| Opaque (o : pyobj X).

Arguments Single {X} a.
Arguments Stacked {X} t.
Arguments Opaque {X} o.

Inductive retval (X : externals) : Type :=
| RetEmpty
| RetTuple (labelled_pd : list (num X * string))
           (price_at_image : array2 (num X))
           (images : tensor X)
           (image_labels : array2 bool)
           (label_names : gmap Z string).

Arguments RetEmpty {X}.
Arguments RetTuple {X} labelled_pd price_at_image images image_labels label_names.

(** A call: the lines printed and how the call ended. *)
Record run (X : externals) : Type := mkRun {
  stdout : list string;
  result : outcome (retval X)
}.

(** [len(images)] of the returned tensor, when it is an array. *)
Definition tensor_len {X : externals} (t : tensor X) : option nat :=
  match t with
  | Single a => Some (length a)
  | Stacked t => Some (length t)
  | Opaque _ => None
  end.

Arguments mkRun {X} stdout result.
Arguments stdout {X} r.
Arguments result {X} r.

Definition window_message : string :=
  "image_window_size must be >= np.ceil(label_window_size/2), please choose a grater image window size.".

Definition strategy_message : string :=
  "Please define the image_trf_strat: GASF, GADF, RP or MTF".

Definition label_order : list string := ["Sell"; "Buy"; "Hold"].

(** The indicators of Sell, Buy and Hold, in that order, for one label. *)
Definition one_hot (label : string) : list bool :=
  map (String.eqb label) label_order.

Section Engine.

Variable X : externals.

Abbreviation array3 := (list (list (list (pixel X)))).
Abbreviation array4 := (list (list (list (list (pixel X))))).
Abbreviation pyval := (sum array3 (pyobj X)).

(** Lines 94-95: the indicator columns, then the fixed column order. *)
Definition encode_labels (strategy : list string) : outcome frame :=
  select_columns (get_dummies strategy) label_order.

(** Lines 99-112: the slice bounds as the two branches write them. *)
Definition slice_start (use_returns : bool) (W : Z) : Z :=
  if use_returns then W else W - 1.

Definition slice_stop (L : Z) : Z := - half_window L.

Definition align (use_returns : bool) (L W : Z) (dummies : frame)
    (labelled_pd : list (num X * string)) : array2 bool * array2 (num X) :=
  let image_labels :=
    slice_rows (frame_to_array dummies) (slice_start use_returns W) (slice_stop L) in
  let price_at_image :=
    reshape_column
      (py_slice (map fst labelled_pd) (slice_start use_returns W) (slice_stop L)) in
  (image_labels, price_at_image).

(** Lines 114-116: [series[1:]/series[:-1] - 1]. *)
Definition return_series (series : list (num X)) : list (num X) :=
  zip_with (simple_return X) (py_slice_from series 1) (py_slice_to series (-1)).

(** Lines 119-141: one transform per strategy named in the selection, each
    over [series[:-np.int(label_window_size/2)]], its images bound to the
    local variable [images_<strategy>]. *)
Definition bind_if (present : bool) (name : string) (call : outcome array3)
    (locals : gmap string array3) : outcome (gmap string array3) :=
  if present then do a <- call; Ok (<[name := a]> locals) else Ok locals.

Definition dispatch (series : list (num X)) (L W : Z) (sel : selection)
    (num_bin padding_RP : Z) (std_RP std_GASF std_GADF : bool)
    : outcome (gmap string array3) :=
  let trimmed := py_slice_to series (slice_stop L) in
  do l1 <- bind_if (sel_contains "GASF" sel) "images_GASF"
             (GASF X trimmed W std_GASF) ∅;
  do l2 <- bind_if (sel_contains "GADF" sel) "images_GADF"
             (GADF X trimmed W std_GADF) l1;
  do l3 <- bind_if (sel_contains "RP" sel) "images_RP"
             (RP X trimmed W padding_RP std_RP) l2;
  bind_if (sel_contains "MTF" sel) "images_MTF"
    (MTF X trimmed W num_bin) l3.

(** Lines 149-152: the dictionary display, keys evaluated in order. *)
Definition label_name_map (label_colnames : list string) : outcome (gmap Z string) :=
  do s <- np_int_array (argwhere label_colnames "Sell");
  do b <- np_int_array (argwhere label_colnames "Buy");
  do h <- np_int_array (argwhere label_colnames "Hold");
  Ok (<[h := "Hold"]> (<[b := "Buy"]> (<[s := "Sell"]> (∅ : gmap Z string)))).

(** [eval("images_" + trf)]. A text that is a variable name (trailing
    blanks apart) is looked up in the locals of the call; no name starting
    with [images_] is a keyword, a global of the module or a builtin, so a
    miss raises [NameError]. Any other text is left to [eval_expression]. *)
Definition eval_images (locals : gmap string array3) (trf : string) : outcome pyval :=
  let src := "images_" +:+ trf in
  let name := rstrip src in
  if is_identifier name then
    match locals !! name with
    | Some a => Ok (inl a)
    | None => Raise (NameError name)
    end
  else eval_expression X locals src.

Fixpoint arrays_of (vs : list pyval) : option (list array3) :=
  match vs with
  | [] => Some []
  | inl a :: vs' => option_map (cons a) (arrays_of vs')
  | inr _ :: _ => None
  end.

Definition as_tensor (r : sum array4 (pyobj X)) : tensor X :=
  match r with
  | inl t => Stacked t
  | inr o => Opaque o
  end.

(** Lines 161 and 166 on the list built by the loop. *)
Definition np_stack (vs : list pyval) : outcome (tensor X) :=
  let irregular := do r <- stack_irregular X vs; Ok (as_tensor r) in
  match arrays_of vs with
  | Some (a :: rest) =>
      match shape3 a with
      | Some s =>
          if forallb (same_shape s) rest
          then Ok (Stacked (moveaxis_first_to_last (a :: rest)))
          else irregular
      | None => irregular
      end
  | _ => irregular
  end.

(** Lines 154-164. The test [(type(image_trf_strat) == list) &
    (len(image_trf_strat) > 1)] holds for a list of two names or more; in
    the [else] branch the operand of [+] is the selection itself: a string
    is evaluated, a list makes [+] raise [TypeError]. *)
Definition assemble_images (sel : selection) (locals : gmap string array3)
    : outcome (tensor X) :=
  match sel with
  | Lst l =>
      if 1 <? sel_len sel then
        do vs <- omapM (eval_images locals) l; np_stack vs
      else Raise (TypeError "can only concatenate str (not list) to str")
  | Str s =>
      do v <- eval_images locals s;
      Ok (match v with inl a => Single a | inr o => Opaque o end)
  end.

(** Lines 89-141: everything between the window guard and the check for
    an empty selection. *)
Definition prepare (data : gmap string (list (num X))) (column_name : string)
    (L W : Z) (sel : selection) (num_bin padding_RP : Z)
    (std_RP std_GASF std_GADF use_returns : bool)
    : outcome (list (num X * string) * array2 (num X) * array2 bool
               * list string * gmap string array3) :=
  do series <- match data !! column_name with
               | Some v => Ok v
               | None => Raise (KeyError [column_name])
               end;
  do labelled_pd <- local_min_max X series L;
  do dummies <- encode_labels (map snd labelled_pd);
  let label_colnames := columns dummies in
  let aligned := align use_returns L W dummies labelled_pd in
  let series' := if use_returns then return_series series else series in
  do locals <- dispatch series' L W sel num_bin padding_RP std_RP std_GASF std_GADF;
  Ok (labelled_pd, snd aligned, fst aligned, label_colnames, locals).

Definition data_to_labelled_img (data : gmap string (list (num X)))
    (column_name : string) (label_window_size image_window_size : Z)
    (image_trf_strat : selection) (num_bin padding_RP : Z)
    (standardize_out_RP standardize_out_GASF standardize_out_GADF use_returns : bool)
    : run X :=
  if window_too_small label_window_size image_window_size then
    {| stdout := [window_message]; result := Ok RetEmpty |}
  else
    match prepare data column_name label_window_size image_window_size
            image_trf_strat num_bin padding_RP standardize_out_RP
            standardize_out_GASF standardize_out_GADF use_returns with
    | Raise e => {| stdout := []; result := Raise e |}
    | Ok (labelled_pd, price_at_image, image_labels, label_colnames, locals) =>
        if sel_len image_trf_strat =? 0 then
          {| stdout := [strategy_message]; result := Ok RetEmpty |}
        else
          {| stdout := [];
             result :=
               do label_names <- label_name_map label_colnames;
               do images <- assemble_images image_trf_strat locals;
               Ok (RetTuple labelled_pd price_at_image images image_labels
                     label_names) |}
    end.

End Engine.

(** ** Vocabulary of the properties *)

Definition fixed_label_names : gmap Z string :=
  <[2 := "Hold"]> (<[1 := "Buy"]> (<[0 := "Sell"]> (∅ : gmap Z string))).

Definition known_strategies : list string := ["GASF"; "GADF"; "RP"; "MTF"].

Definition is_known (s : string) : bool :=
  existsb (String.eqb s) known_strategies.

(** The names a selection holds, and the first of them that is no
    strategy. *)
Definition names_of (sel : selection) : list string :=
  match sel with
  | Str s => [s]
  | Lst l => l
  end.

Definition first_unknown (l : list string) : option string :=
  List.find (fun s => negb (is_known s)) l.

(** A selection that holds strategy names only, and at least one. *)
Definition valid_selection (sel : selection) : bool :=
  match sel with
  | Str s => is_known s
  | Lst l => negb (Nat.eqb (length l) 0) && forallb is_known l
  end.

(** A selection that gets as far as [eval]: a non-empty string, or a list
    of two names or more. *)
Definition reaches_eval (sel : selection) : bool :=
  match sel with
  | Str s => negb (String.eqb s "")
  | Lst l => (2 <=? length l)%nat
  end.

Definition image_var (strategy : string) : string := "images_" +:+ strategy.

(** How a strategy's variable stands after the dispatch: bound to the
    transform's images when the selection names the strategy, unbound
    otherwise. *)
Definition binding {A : Type} (locals : gmap string A) (present : bool)
    (name : string) (call : outcome A) : Prop :=
  if present then exists a, call = Ok a /\ locals !! name = Some a
  else locals !! name = None.

(** The transform call of a strategy, as the dispatch makes it. *)
Definition transform_call (X : externals) (series : list (num X)) (L W : Z)
    (num_bin padding_RP : Z) (std_RP std_GASF std_GADF : bool)
    (strategy : string) : outcome (list (list (list (pixel X)))) :=
  let trimmed := py_slice_to series (slice_stop L) in
  if String.eqb strategy "GASF" then GASF X trimmed W std_GASF
  else if String.eqb strategy "GADF" then GADF X trimmed W std_GADF
  else if String.eqb strategy "RP" then RP X trimmed W padding_RP std_RP
  else MTF X trimmed W num_bin.

(** Entry [(i, r, c)] of a list of images. *)
Definition entry3 {A : Type} (a : list (list (list A))) (i r c : nat) : option A :=
  a !! i ≫= fun img => img !! r ≫= fun row => row !! c.

(** An array of [n] images that all have the dimensions [hw]. *)
Definition well_shaped {A : Type} (n : nat) (hw : nat * nat)
    (a : list (list (list A))) : Prop :=
  length a = n /\ forallb (regular_image hw) a = true.

(** A call fails when it ends with an exception. *)
Definition fails {X : externals} (r : run X) : Prop :=
  exists e, result r = Raise e.

Definition concat_error : exn :=
  TypeError "can only concatenate str (not list) to str".

(** The first exception among the calls that are made, in the order given. *)
Fixpoint first_raise {A : Type} (calls : list (bool * outcome A)) : option exn :=
  match calls with
  | [] => None
  | (false, _) :: rest => first_raise rest
  | (true, Ok _) :: rest => first_raise rest
  | (true, Raise e) :: _ => Some e
  end.

(** The exception the dispatch meets first, if any: the transforms of the
    strategies the selection names, taken in the order GASF, GADF, RP, MTF
    of lines 119-141. *)
Definition dispatch_failure (X : externals) (series : list (num X)) (L W : Z)
    (sel : selection) (num_bin padding_RP : Z)
    (std_RP std_GASF std_GADF : bool) : option exn :=
  first_raise
    (map (fun s => (sel_contains s sel,
                    transform_call X series L W num_bin padding_RP std_RP
                      std_GASF std_GADF s))
         known_strategies).

(** The series the transforms work on: the returns on the returns basis,
    the values themselves otherwise. *)
Definition imaging_series (X : externals) (use_returns : bool)
    (series : list (num X)) : list (num X) :=
  if use_returns then return_series X series else series.

(** The number of [True] entries of a row. *)
Definition count_true (row : list bool) : nat := length (List.filter id row).

(** ** A concrete set of collaborators

    Integer series and integer pixels, a labeller that reads its labels
    from a given function of the row index, and transforms that turn each
    window of the series into a small matrix. They serve to run the
    function on explicit inputs. As the docstring says of the recurrence
    plot, [RP] makes images one row and one column smaller than the
    window, before padding. *)
Module Demo.

Fixpoint windows (w : nat) (fuel : nat) (l : list Z) : list (list Z) :=
  match fuel with
  | O => []
  | S fuel' =>
      if (w <=? length l)%nat
      then firstn w l :: windows w fuel' (tl l)
      else []
  end.

Definition sliding (W : Z) (l : list Z) : list (list Z) :=
  if W <=? 0 then [] else windows (Z.to_nat W) (length l) l.

Definition outer (f : Z -> Z -> Z) (w : list Z) : list (list Z) :=
  map (fun a => map (f a) w) w.

Definition pad (p : Z) (img : list (list Z)) : list (list Z) :=
  let k := Z.to_nat p in
  map (fun row => row ++ repeat 0 k) img
  ++ repeat (repeat 0 (length img + k)) k.

(** Step sizes of a window: one value fewer than the window holds. *)
Definition steps (w : list Z) : list Z := zip_with Z.sub (tl w) w.

Definition label_rows (f : nat -> string) (series : list Z) : list (Z * string) :=
  imap (fun i v => (v, f i)) series.

Definition world (f : nat -> string) : externals :=
  {| num := Z;
     pixel := Z;
     pyobj := unit;
     local_min_max := fun series _ => Ok (label_rows f series);
     GASF := fun s W _ => Ok (map (outer Z.add) (sliding W s));
     GADF := fun s W _ => Ok (map (outer Z.sub) (sliding W s));
     RP := fun s W p _ =>
       Ok (map (fun w => pad p (outer Z.mul (steps w))) (sliding W s));
     MTF := fun s W _ => Ok (map (outer Z.max) (sliding W s));
     simple_return := fun cur prev => cur - prev;
     eval_expression := fun _ _ => Raise (ExternalError "eval");
     stack_irregular := fun _ => Raise (ValueError "inhomogeneous shape") |}.

(** Labels that cycle through Sell, Buy, Hold. *)
Definition cycle3 (i : nat) : string :=
  match (i mod 3)%nat with
  | O => "Sell"
  | 1%nat => "Buy"
  | _ => "Hold"
  end.

(** Labels with a fourth value, Wait, outside the three. *)
Definition cycle4 (i : nat) : string :=
  match (i mod 4)%nat with
  | O => "Sell"
  | 1%nat => "Buy"
  | 2%nat => "Hold"
  | _ => "Wait"
  end.

(** Labels that are all Hold. *)
Definition all_hold (i : nat) : string := "Hold".

Definition frame_of (series : list Z) : gmap string (list Z) :=
  {[ "Series" := series ]}.

Definition ramp (n : nat) : list Z := map Z.of_nat (seq 1 n).

(** The call of the module's entry point, on 40 samples, and what it
    returns. *)
Definition W3 : externals := world cycle3.

Definition main_call : run W3 :=
  data_to_labelled_img W3 (frame_of (ramp 40)) "Series" 3 14
    (Lst ["RP"; "GASF"; "MTF"]) 4 1 false false false false.

Definition main_labelled : list (num W3 * string) := label_rows cycle3 (ramp 40).

Definition main_price : array2 (num W3) :=
  reshape_column (py_slice (map fst main_labelled) 13 (-1)).

Definition main_labels : array2 bool :=
  {| ncols := 3; arows := py_slice (map one_hot (map snd main_labelled)) 13 (-1) |}.

Definition main_windows : list (list Z) := sliding 14 (py_slice_to (ramp 40) (-1)).

Definition main_images : tensor W3 :=
  @Stacked W3
    (moveaxis_first_to_last
       [map (fun w => pad 1 (outer Z.mul (steps w))) main_windows;
        map (outer Z.add) main_windows;
        map (outer Z.max) main_windows]).

(** The same collaborators, except that the Markov transition field and
    the angular summation field fail. *)
Definition broken : externals :=
  {| num := Z;
     pixel := Z;
     pyobj := unit;
     local_min_max := local_min_max W3;
     GASF := fun _ _ _ => Raise (ExternalError "GASF");
     GADF := GADF W3;
     RP := RP W3;
     MTF := fun _ _ _ => Raise (ExternalError "MTF");
     simple_return := simple_return W3;
     eval_expression := eval_expression W3;
     stack_irregular := stack_irregular W3 |}.

(** A call on the returns basis, on 8 samples, and what it returns. *)
Definition returns_call : run W3 :=
  data_to_labelled_img W3 (frame_of (ramp 8)) "Series" 3 3
    (Lst ["RP"; "GASF"; "MTF"]) 4 1 false false false true.

Definition returns_labelled : list (num W3 * string) := label_rows cycle3 (ramp 8).

Definition returns_price : array2 (num W3) :=
  reshape_column (py_slice (map fst returns_labelled) 3 (-1)).

Definition returns_labels : array2 bool :=
  {| ncols := 3; arows := py_slice (map one_hot (map snd returns_labelled)) 3 (-1) |}.

Definition returns_windows : list (list Z) :=
  sliding 3 (py_slice_to (return_series W3 (ramp 8)) (-1)).

Definition returns_images : tensor W3 :=
  @Stacked W3
    (moveaxis_first_to_last
       [map (fun w => pad 1 (outer Z.mul (steps w))) returns_windows;
        map (outer Z.add) returns_windows;
        map (outer Z.max) returns_windows]).

End Demo.

(** * Properties *)

(** ** Window arithmetic *)

Lemma np_ceil_half (L : Z) : np_ceil (true_div2 L) = (L + 1) / 2.
Proof.
  unfold np_ceil, true_div2, Qceiling, Qfloor, Qdiv, Qmult, Qinv, Qopp, inject_Z.
  simpl. change (Z.pos (1 * 2)) with 2. rewrite Z.mul_1_r.
  Z.div_mod_to_equations. lia.
Qed.

Lemma half_window_quot (L : Z) : half_window L = Z.quot L 2.
Proof.
  unfold half_window, np_int, true_div2, Qceiling, Qfloor, Qdiv, Qmult, Qinv,
    Qopp, Qle_bool, inject_Z.
  simpl. change (Z.pos (1 * 2)) with 2. rewrite !Z.mul_1_r, Z.mul_0_l.
  destruct (Z.leb_spec 0 L) as [Hpos | Hneg].
  - rewrite Z.quot_div_nonneg by lia. reflexivity.
  - rewrite <- (Z.opp_involutive L) at 2. rewrite Z.quot_opp_l by lia.
    rewrite Z.quot_div_nonneg by lia. reflexivity.
Qed.

Lemma half_window_nonneg (L : Z) : 0 <= L -> half_window L = L / 2.
Proof.
  intros HL. rewrite half_window_quot. apply Z.quot_div_nonneg; lia.
Qed.

(** For an odd positive window the guard bound is the half window plus
    one, and at least one. *)
Lemma odd_window_bounds (L : Z) :
  0 < L -> Z.odd L = true ->
  0 <= half_window L /\ np_ceil (true_div2 L) = half_window L + 1 /\
  L = 2 * half_window L + 1.
Proof.
  intros HL Hodd. rewrite np_ceil_half, half_window_nonneg by lia.
  apply Z.odd_spec in Hodd as [k Hk]. subst L.
  assert ((2 * k + 1) / 2 = k) as ->.
  { symmetry. apply Z.div_unique with (r := 1); lia. }
  assert ((2 * k + 1 + 1) / 2 = k + 1) as ->.
  { symmetry. apply Z.div_unique with (r := 0); lia. }
  lia.
Qed.

(** ** Slices *)

Lemma clamp_index_range (len i : Z) : 0 <= len -> 0 <= clamp_index len i <= len.
Proof.
  intros Hlen. unfold clamp_index. destruct (Z.ltb_spec i 0); lia.
Qed.

Lemma py_slice_length {A : Type} (l : list A) (start stop : Z) :
  Z.of_nat (length (py_slice l start stop)) =
  Z.max 0 (clamp_index (Z.of_nat (length l)) stop
           - clamp_index (Z.of_nat (length l)) start).
Proof.
  unfold py_slice.
  pose proof (clamp_index_range (Z.of_nat (length l)) start ltac:(lia)).
  pose proof (clamp_index_range (Z.of_nat (length l)) stop ltac:(lia)).
  rewrite length_firstn, length_skipn. lia.
Qed.

(** A stop of zero, which is what [-0] is, leaves nothing. *)
Lemma py_slice_stop_zero {A : Type} (l : list A) (start : Z) :
  0 <= start -> py_slice l start 0 = [].
Proof.
  intros Hs. unfold py_slice.
  pose proof (clamp_index_range (Z.of_nat (length l)) start ltac:(lia)).
  assert (clamp_index (Z.of_nat (length l)) 0 = 0) as ->.
  { unfold clamp_index. simpl. lia. }
  replace (Z.to_nat (0 - _)) with O by lia. reflexivity.
Qed.

(** A non-negative start and a negative stop [-h] within the list select
    the range from [start] to [len - h]. *)
Lemma py_slice_negative_stop {A : Type} (l : list A) (start h : Z) :
  0 <= start -> 0 < h -> h <= Z.of_nat (length l) ->
  py_slice l start (- h) = range_of l (Z.to_nat start) (length l - Z.to_nat h).
Proof.
  intros Hs Hh Hlen. unfold py_slice, range_of, clamp_index.
  destruct (Z.ltb_spec start 0); [lia |].
  destruct (Z.ltb_spec (- h) 0); [| lia].
  destruct (Z.le_gt_cases start (Z.of_nat (length l))) as [Hin | Hout].
  - rewrite Z.min_l by lia. f_equal. lia.
  - rewrite Z.min_r by lia.
    rewrite (skipn_all2 (n := Z.to_nat (Z.of_nat (length l)))) by lia.
    rewrite (skipn_all2 (n := Z.to_nat start)) by lia.
    now rewrite !firstn_nil.
Qed.


(** ** Label encoding *)

Lemma insert_sorted_In (x s : string) (l : list string) :
  In x (insert_sorted s l) <-> x = s \/ In x l.
Proof.
  induction l as [| y l IH]; simpl.
  - intuition congruence.
  - destruct (String.compare s y) eqn:Hc; simpl.
    + apply String.compare_eq_iff in Hc. subst y. intuition congruence.
    + intuition congruence.
    + rewrite IH. intuition congruence.
Qed.

Lemma sorted_levels_In (x : string) (col : list string) :
  In x (sorted_levels col) <-> In x col.
Proof.
  unfold sorted_levels. induction col as [| s col IH]; simpl.
  - reflexivity.
  - rewrite insert_sorted_In, IH. intuition congruence.
Qed.

Lemma has_column_In (cols : list string) (name : string) :
  has_column cols name = true <-> In name cols.
Proof.
  unfold has_column. induction cols as [| c cols IH]; simpl.
  - split; [discriminate | tauto].
  - destruct (String.eqb_spec c name) as [-> | Hne].
    + tauto.
    + destruct (col_index name cols); simpl in *.
      * split; [intros _; right; now apply IH | reflexivity].
      * split; [discriminate |].
        intros [Heq | Hin]; [congruence | now apply IH].
Qed.

(** Reading a named cell of an indicator row gives the indicator of that
    name. *)
Lemma cell_indicator (f : string -> bool) (cols : list string) (name : string) :
  In name cols -> cell cols (map f cols) name = f name.
Proof.
  unfold cell. induction cols as [| c cols IH]; simpl; [tauto |].
  intros Hin. destruct (String.eqb_spec c name) as [-> | Hne]; [reflexivity |].
  destruct Hin as [Heq | Hin]; [congruence |].
  specialize (IH Hin). destruct (col_index name cols); simpl in *; exact IH.
Qed.

Lemma encode_labels_inv (col : list string) (df : frame) :
  encode_labels col = Ok df ->
  (In "Sell" col /\ In "Buy" col /\ In "Hold" col) /\
  df = {| columns := label_order; frame_rows := map one_hot col |}.
Proof.
  unfold encode_labels, select_columns, get_dummies, label_order. simpl.
  destruct (has_column (sorted_levels col) "Sell") eqn:Hs;
  destruct (has_column (sorted_levels col) "Buy") eqn:Hb;
  destruct (has_column (sorted_levels col) "Hold") eqn:Hh;
    simpl; try discriminate.
  apply has_column_In in Hs, Hb, Hh.
  intros [= <-]. split.
  - rewrite !sorted_levels_In in *. repeat split; assumption.
  - f_equal. rewrite map_map. apply map_ext. intros v.
    unfold one_hot, label_order. simpl.
    now rewrite !cell_indicator by assumption.
Qed.

Lemma encode_labels_ok (col : list string) :
  In "Sell" col -> In "Buy" col -> In "Hold" col ->
  encode_labels col =
  Ok {| columns := label_order; frame_rows := map one_hot col |}.
Proof.
  intros Hs Hb Hh.
  destruct (encode_labels col) as [df | e] eqn:Henc.
  - apply encode_labels_inv in Henc as [_ ->]. reflexivity.
  - exfalso. revert Henc.
    unfold encode_labels, select_columns, get_dummies, label_order. simpl.
    rewrite <- sorted_levels_In in Hs, Hb, Hh.
    apply has_column_In in Hs, Hb, Hh. rewrite Hs, Hb, Hh. simpl. discriminate.
Qed.

(** A label outside the three has an all-zero row. *)
Lemma one_hot_outside (label : string) :
  ~ In label label_order -> one_hot label = [false; false; false].
Proof.
  unfold one_hot, label_order. simpl. intros Hout.
  destruct (String.eqb_spec label "Sell"); [intuition congruence |].
  destruct (String.eqb_spec label "Buy"); [intuition congruence |].
  destruct (String.eqb_spec label "Hold"); [intuition congruence |].
  reflexivity.
Qed.

Lemma label_name_map_fixed :
  label_name_map label_order =
  Ok (<[2 := "Hold"]> (<[1 := "Buy"]> (<[0 := "Sell"]> (∅ : gmap Z string)))).
Proof. reflexivity. Qed.

(** ** Anatomy of a call *)

Section Anatomy.

Variable X : externals.

Variables (data : gmap string (list (num X))) (column_name : string).
Variables (L W : Z) (sel : selection) (num_bin padding_RP : Z).
Variables (std_RP std_GASF std_GADF use_returns : bool).

Let the_call : run X :=
  data_to_labelled_img X data column_name L W sel num_bin padding_RP
    std_RP std_GASF std_GADF use_returns.

Let the_prepare :=
  prepare X data column_name L W sel num_bin padding_RP
    std_RP std_GASF std_GADF use_returns.

(** What the stage between the guard and the empty-selection check has
    done when it succeeds. *)
Lemma prepare_inv labelled_pd price_at_image image_labels label_colnames locals :
  the_prepare =
    Ok (labelled_pd, price_at_image, image_labels, label_colnames, locals) ->
  exists series,
    data !! column_name = Some series /\
    local_min_max X series L = Ok labelled_pd /\
    (In "Sell" (map snd labelled_pd) /\ In "Buy" (map snd labelled_pd) /\
     In "Hold" (map snd labelled_pd)) /\
    label_colnames = label_order /\
    image_labels =
      {| ncols := 3;
         arows := py_slice (map one_hot (map snd labelled_pd))
                    (slice_start use_returns W) (slice_stop L) |} /\
    price_at_image =
      reshape_column (py_slice (map fst labelled_pd)
                        (slice_start use_returns W) (slice_stop L)) /\
    dispatch X (if use_returns then return_series X series else series)
      L W sel num_bin padding_RP std_RP std_GASF std_GADF = Ok locals.
Proof.
  unfold the_prepare, prepare.
  destruct (data !! column_name) as [series |] eqn:Hcol; simpl; [| discriminate].
  destruct (local_min_max X series L) as [lp |] eqn:Hlab; simpl; [| discriminate].
  destruct (encode_labels (map snd lp)) as [df |] eqn:Henc; simpl; [| discriminate].
  destruct (dispatch X _ L W sel num_bin padding_RP std_RP std_GASF std_GADF)
    as [loc |] eqn:Hdis; simpl; [| discriminate].
  intros [= <- <- <- <- <-].
  apply encode_labels_inv in Henc as [Hin ->].
  exists series. repeat split; try assumption; try reflexivity; apply Hin.
Qed.

(** A call that returns the five results has passed the guard, prepared
    its data, built the fixed label map and assembled the images. *)
Lemma returns_inv labelled_pd price_at_image images image_labels label_names :
  result the_call =
    Ok (RetTuple labelled_pd price_at_image images image_labels label_names) ->
  window_too_small L W = false /\
  sel_len sel <> 0 /\
  label_names = fixed_label_names /\
  exists locals,
    the_prepare =
      Ok (labelled_pd, price_at_image, image_labels, label_order, locals) /\
    assemble_images X sel locals = Ok images.
Proof.
  unfold the_call, data_to_labelled_img. fold the_prepare.
  destruct (window_too_small L W); [simpl; discriminate |].
  destruct the_prepare as [[[[[lp pr] il] cols] loc] | e] eqn:Hprep;
    [| simpl; discriminate].
  pose proof (prepare_inv _ _ _ _ _ Hprep) as (series & _ & _ & _ & -> & _).
  destruct (Z.eqb_spec (sel_len sel) 0) as [Hz | Hnz]; [simpl; discriminate |].
  simpl result.
  destruct (assemble_images X sel loc) as [imgs |] eqn:Hasm; simpl; [| discriminate].
  intros [= <- <- <- <- <-].
  repeat split; try assumption; try reflexivity.
  exists loc. split; [reflexivity | exact Hasm].
Qed.

(** Conversely, past the guard and the preparation, the call ends as the
    assembly of the images ends. *)
Lemma result_after_prepare labelled_pd price_at_image image_labels label_colnames locals :
  window_too_small L W = false ->
  the_prepare =
    Ok (labelled_pd, price_at_image, image_labels, label_colnames, locals) ->
  sel_len sel <> 0 ->
  result the_call =
    do images <- assemble_images X sel locals;
    Ok (RetTuple labelled_pd price_at_image images image_labels fixed_label_names).
Proof.
  intros Hguard Hprep Hlen.
  pose proof (prepare_inv _ _ _ _ _ Hprep) as (series & _ & _ & _ & -> & _).
  unfold the_call, data_to_labelled_img. fold the_prepare.
  rewrite Hguard, Hprep.
  destruct (Z.eqb_spec (sel_len sel) 0) as [Hz | Hnz]; [contradiction |].
  simpl result. reflexivity.
Qed.

End Anatomy.

(** ** Dispatch *)

Lemma image_var_unfold (s : string) :
  image_var s =
  String "i" (String "m" (String "a" (String "g" (String "e" (String "s"
    (String "_" s)))))).
Proof. reflexivity. Qed.

Lemma image_var_inj (s t : string) : image_var s = image_var t -> s = t.
Proof. rewrite !image_var_unfold. now intros [= ->]. Qed.

Section Dispatch.

Variable X : externals.
Variables (series : list (num X)) (L W : Z) (sel : selection).
Variables (num_bin padding_RP : Z) (std_RP std_GASF std_GADF : bool).

Let trimmed : list (num X) := py_slice_to series (slice_stop L).

Lemma dispatch_bindings locals :
  dispatch X series L W sel num_bin padding_RP std_RP std_GASF std_GADF
    = Ok locals ->
  forall s, In s known_strategies ->
    binding locals (sel_contains s sel) (image_var s)
      (transform_call X series L W num_bin padding_RP std_RP std_GASF
         std_GADF s).
Proof.
  unfold dispatch, bind_if. fold trimmed.
  intros Hd s Hs.
  destruct (sel_contains "GASF" sel) eqn:H1;
  [destruct (GASF X trimmed W std_GASF) eqn:C1; [| discriminate] |];
  (destruct (sel_contains "GADF" sel) eqn:H2;
   [destruct (GADF X trimmed W std_GADF) eqn:C2; [| discriminate] |]);
  (destruct (sel_contains "RP" sel) eqn:H3;
   [destruct (RP X trimmed W padding_RP std_RP) eqn:C3; [| discriminate] |]);
  (destruct (sel_contains "MTF" sel) eqn:H4;
   [destruct (MTF X trimmed W num_bin) eqn:C4; [| discriminate] |]);
  simpl in Hd; injection Hd as <-;
  unfold known_strategies in Hs; simpl in Hs;
  destruct Hs as [<- | [<- | [<- | [<- | []]]]];
  unfold binding, transform_call; simpl; fold trimmed;
  rewrite ?H1, ?H2, ?H3, ?H4, ?C1, ?C2, ?C3, ?C4;
  try (eexists; split; [reflexivity |]);
  unfold image_var; simplify_map_eq; reflexivity.
Qed.

Lemma dispatch_names locals name :
  dispatch X series L W sel num_bin padding_RP std_RP std_GASF std_GADF
    = Ok locals ->
  is_Some (locals !! name) ->
  exists s, In s known_strategies /\ name = image_var s.
Proof.
  unfold dispatch, bind_if. fold trimmed.
  intros Hd [a Ha].
  destruct (sel_contains "GASF" sel);
  [destruct (GASF X trimmed W std_GASF); [| discriminate] |];
  (destruct (sel_contains "GADF" sel);
   [destruct (GADF X trimmed W std_GADF); [| discriminate] |]);
  (destruct (sel_contains "RP" sel);
   [destruct (RP X trimmed W padding_RP std_RP); [| discriminate] |]);
  (destruct (sel_contains "MTF" sel);
   [destruct (MTF X trimmed W num_bin); [| discriminate] |]);
  simpl in Hd; injection Hd as <-;
  repeat (rewrite lookup_insert in Ha; case_decide;
          [subst name; eexists; split; [| reflexivity];
           unfold known_strategies; simpl; tauto |]);
  rewrite lookup_empty in Ha; discriminate.
Qed.

End Dispatch.

(** ** Evaluation of [images_<name>] *)

Lemma plain_char_not_blank (c : ascii) :
  is_letter c || is_digit c = true -> is_blank c = false.
Proof.
  destruct c as [[] [] [] [] [] [] [] []]; vm_compute; congruence.
Qed.

Lemma rstrip_no_blank (s : string) :
  all_chars (fun c => negb (is_blank c)) s = true -> rstrip s = s.
Proof.
  induction s as [| c s IH]; simpl; [reflexivity |].
  intros [Hc Hs]%andb_true_iff. rewrite (IH Hs).
  destruct s; [| reflexivity].
  apply negb_true_iff in Hc. now rewrite Hc.
Qed.

Lemma all_chars_impl (p q : ascii -> bool) (s : string) :
  (forall c, p c = true -> q c = true) ->
  all_chars p s = true -> all_chars q s = true.
Proof.
  intros Hpq. induction s as [| c s IH]; simpl; [reflexivity |].
  intros [Hc Hs]%andb_true_iff. rewrite (Hpq c Hc), (IH Hs). reflexivity.
Qed.

Lemma image_var_plain (x : string) :
  plain_name x = true ->
  rstrip (image_var x) = image_var x /\ is_identifier (image_var x) = true.
Proof.
  intros Hx. split.
  - apply rstrip_no_blank. rewrite image_var_unfold. simpl.
    revert Hx. apply all_chars_impl. intros c Hc.
    now rewrite (plain_char_not_blank c Hc).
  - rewrite image_var_unfold. simpl. exact Hx.
Qed.

(** For a plain name, [eval] is a lookup among the locals. *)
Lemma eval_images_plain (X : externals)
    (locals : gmap string (list (list (list (pixel X))))) (x : string) :
  plain_name x = true ->
  eval_images X locals x =
  match locals !! image_var x with
  | Some a => Ok (inl a)
  | None => Raise (NameError (image_var x))
  end.
Proof.
  intros Hx. unfold eval_images. fold (image_var x).
  destruct (image_var_plain x Hx) as [-> ->]. reflexivity.
Qed.

Lemma known_strategy_plain (s : string) :
  In s known_strategies -> plain_name s = true.
Proof.
  unfold known_strategies. simpl.
  intros [<- | [<- | [<- | [<- | []]]]]; reflexivity.
Qed.

(** ** Transposition and stacking *)

Lemma zip_cons_length {A : Type} (x : list A) (acc : list (list A)) :
  length acc = length x -> length (zip_cons x acc) = length x.
Proof.
  revert acc. induction x as [| a x IH]; intros [| r acc]; simpl; try lia.
  intros [= H]. now rewrite IH.
Qed.

Lemma transpose_length {A : Type} (n : nat) (x : list A) (rest : list (list A)) :
  Forall (fun l => length l = n) (x :: rest) ->
  length (transpose (x :: rest)) = n.
Proof.
  revert x. induction rest as [| y rest IH]; intros x Hall.
  - simpl. rewrite length_map. now inversion Hall.
  - change (transpose (x :: y :: rest)) with (zip_cons x (transpose (y :: rest))).
    inversion Hall as [| ? ? Hx Hrest]; subst.
    rewrite zip_cons_length; [reflexivity |].
    now rewrite (IH y Hrest).
Qed.

(** Entry [i] of the transpose gathers the entries [i] of the lists. *)
Lemma zip_cons_lookup {A : Type} (x : list A) (acc : list (list A)) (i : nat)
    (a : A) (r : list A) :
  x !! i = Some a -> acc !! i = Some r -> zip_cons x acc !! i = Some (a :: r).
Proof.
  revert acc i. induction x as [| b x IH]; intros [| s acc] [| i]; simpl;
    try discriminate.
  - now intros [= ->] [= ->].
  - apply IH.
Qed.

Lemma transpose_lookup {A : Type} (x : list A) (rest : list (list A))
    (i : nat) (col : list A) :
  Forall2 (fun l c => l !! i = Some c) (x :: rest) col ->
  transpose (x :: rest) !! i = Some col.
Proof.
  revert x col. induction rest as [| y rest IH]; intros x col Hall.
  - inversion Hall as [| ? c ? cs Hx Hrest]; subst.
    inversion Hrest; subst. simpl.
    rewrite list_lookup_fmap, Hx. reflexivity.
  - change (transpose (x :: y :: rest)) with (zip_cons x (transpose (y :: rest))).
    inversion Hall as [| ? c ? cs Hx Hrest]; subst.
    apply zip_cons_lookup; [exact Hx | now apply IH].
Qed.

Lemma Forall2_split_lookup {A B C : Type} (f : A -> option B) (g : B -> option C)
    (l : list A) (v : list C) :
  Forall2 (fun a p => f a ≫= g = Some p) l v ->
  exists m, Forall2 (fun a b => f a = Some b) l m /\
            Forall2 (fun b p => g b = Some p) m v.
Proof.
  induction 1 as [| a p l v Hap _ (m & Hm1 & Hm2)].
  - exists []. split; constructor.
  - destruct (f a) as [b |] eqn:Hf; simpl in Hap; [| discriminate].
    exists (b :: m). split; constructor; assumption.
Qed.

(** [np.moveaxis(a, 0, -1)[i][r][c]] lists [a[ch][i][r][c]] over the
    channels [ch], in the order of [a]. *)
Lemma moveaxis_entry {A : Type} (x : list (list (list A)))
    (rest : list (list (list (list A)))) (i r c : nat) (v : list A) :
  Forall2 (fun a p => entry3 a i r c = Some p) (x :: rest) v ->
  entry3 (moveaxis_first_to_last (x :: rest)) i r c = Some v.
Proof.
  unfold entry3. intros Hall.
  apply Forall2_split_lookup in Hall as (imgs & Himgs & Hall).
  apply Forall2_split_lookup in Hall as (rows & Hrows & Hv).
  unfold moveaxis_first_to_last.
  rewrite list_lookup_fmap, (transpose_lookup _ _ _ _ Himgs). simpl.
  destruct imgs as [| img imgs]; [inversion Himgs |].
  rewrite list_lookup_fmap, (transpose_lookup _ _ _ _ Hrows). simpl.
  destruct rows as [| row rows]; [inversion Hrows |].
  now apply transpose_lookup.
Qed.

Lemma moveaxis_length {A : Type} (n : nat) (x : list (list (list A)))
    (rest : list (list (list (list A)))) :
  Forall (fun a => length a = n) (x :: rest) ->
  length (moveaxis_first_to_last (x :: rest)) = n.
Proof.
  intros Hall. unfold moveaxis_first_to_last.
  rewrite length_map. now apply transpose_length.
Qed.

Lemma regular_image_dims {A : Type} (hw : nat * nat) (img img' : list (list A)) :
  regular_image hw img = true -> regular_image hw img' = true ->
  regular_image (image_dims img) img' = true.
Proof.
  destruct hw as [H Wd]. unfold regular_image, image_dims. simpl.
  intros [Hlen Hrows]%andb_true_iff [Hlen' Hrows']%andb_true_iff.
  apply Nat.eqb_eq in Hlen, Hlen'.
  destruct img as [| row img]; simpl in *.
  - subst H. destruct img'; [reflexivity | discriminate].
  - apply andb_true_iff in Hrows as [Hrow _]. apply Nat.eqb_eq in Hrow.
    rewrite Hrow, Hlen', Hlen, Nat.eqb_refl. exact Hrows'.
Qed.

Lemma arrays_of_inl (X : externals) (l : list (list (list (list (pixel X))))) :
  arrays_of X (map inl l) = Some l.
Proof.
  induction l as [| a l IH]; simpl; [reflexivity |]. now rewrite IH.
Qed.

(** Arrays of one common shape are stacked along a new last axis. *)
Lemma np_stack_well_shaped (X : externals) (n : nat) (hw : nat * nat)
    (a : list (list (list (pixel X))))
    (rest : list (list (list (list (pixel X))))) :
  Forall (well_shaped n hw) (a :: rest) ->
  np_stack X (map inl (a :: rest)) =
  Ok (Stacked (moveaxis_first_to_last (a :: rest))).
Proof.
  intros Hall. unfold np_stack. rewrite arrays_of_inl.
  inversion Hall as [| ? ? [Hn Ha] Hrest]; subst.
  assert (forall img, In img a ->
          forall a' : list (list (list (pixel X))),
          well_shaped (length a) hw a' ->
          forallb (regular_image (image_dims img)) a' = true) as Hdims.
  { intros img Himg a' [_ Ha']. apply forallb_forall. intros img' Himg'.
    rewrite forallb_forall in Ha, Ha'.
    apply (regular_image_dims hw); auto. }
  assert (shape3 a = Some (length a, image_dims (hd [] a))) as ->.
  { unfold shape3. destruct a as [| img a']; [reflexivity |].
    simpl hd. rewrite (Hdims img); [reflexivity | now left | now split]. }
  assert (forallb (same_shape (length a, image_dims (hd [] a))) rest = true) as ->;
    [| reflexivity].
  apply forallb_forall. intros a' Ha'.
  rewrite Forall_forall in Hrest.
  assert (well_shaped (length a) hw a') as Hw.
  { apply Hrest. now apply list_elem_of_In. }
  unfold same_shape. simpl. destruct Hw as [Hlen Hreg].
  rewrite Hlen, Nat.eqb_refl. simpl.
  destruct a as [| img a0].
  - destruct a'; [reflexivity | discriminate].
  - simpl hd. apply (Hdims img); [now left | now split].
Qed.

(** * The claims *)

(** ** The window guard *)

(** C3, as amended: when the image window is smaller than
    [ceil(label_window_size/2)] the call prints the window message and
    returns the empty tuple; nothing is raised, and neither the labeller nor
    a transform has a part in the outcome. *)
Theorem C3_small_window_prints_and_returns_empty_tuple (X : externals)
    (data : gmap string (list (num X))) (column_name : string) (L W : Z)
    (sel : selection) (num_bin padding_RP : Z)
    (std_RP std_GASF std_GADF use_returns : bool) :
  W < np_ceil (true_div2 L) ->
  data_to_labelled_img X data column_name L W sel num_bin padding_RP
    std_RP std_GASF std_GADF use_returns
  = {| stdout := [window_message]; result := Ok RetEmpty |}.
Proof.
  intros Hsmall. unfold data_to_labelled_img, window_too_small.
  destruct (Z.ltb_spec W (np_ceil (true_div2 L))); [reflexivity | lia].
Qed.

Lemma C3_small_window_witness :
  2 < np_ceil (true_div2 5) /\
  data_to_labelled_img (Demo.world Demo.cycle3) (Demo.frame_of (Demo.ramp 8))
    "Series" 5 2 (Str "GASF") 5 0 false false false false
  = {| stdout := [window_message]; result := Ok RetEmpty |}.
Proof.
  split.
  - vm_compute. reflexivity.
  - apply C3_small_window_prints_and_returns_empty_tuple. vm_compute. reflexivity.
Defined.

(** C3, as stated, fails: with a label window of 5 and an image window of
    2 the call does not end with an error; it returns normally, and what it
    returns is the empty tuple. *)
Lemma C3_small_window_is_a_normal_return :
  let r := data_to_labelled_img (Demo.world Demo.cycle3)
             (Demo.frame_of (Demo.ramp 8)) "Series" 5 2 (Str "GASF") 5 0
             false false false false in
  5 > 0 /\ 2 < np_ceil (true_div2 5) /\ result r = Ok RetEmpty /\ ~ fails r.
Proof.
  repeat split.
  intros [e He]. vm_compute in He. discriminate He.
Qed.

(** ** Alignment *)



(** The price-basis slice, for an odd label window of at least 3 that fits
    the series: rows [W-1] to [N - floor(L/2)] of the labelled table. *)
Lemma price_basis_range (X : externals)
    (data : gmap string (list (num X))) (column_name : string) (L W : Z)
    (sel : selection) (num_bin padding_RP : Z) (std_RP std_GASF std_GADF : bool)
    labelled_pd price_at_image images image_labels label_names :
  3 <= L -> Z.odd L = true -> np_ceil (true_div2 L) <= W ->
  L <= Z.of_nat (length labelled_pd) ->
  result (data_to_labelled_img X data column_name L W sel num_bin padding_RP
            std_RP std_GASF std_GADF false)
  = Ok (RetTuple labelled_pd price_at_image images image_labels label_names) ->
  let lo := Z.to_nat (W - 1) in
  let hi := (length labelled_pd - Z.to_nat (L / 2))%nat in
  price_at_image = reshape_column (range_of (map fst labelled_pd) lo hi) /\
  image_labels =
    {| ncols := 3; arows := range_of (map one_hot (map snd labelled_pd)) lo hi |}.
Proof.
  intros HL Hodd HW HN Hres lo hi.
  destruct (odd_window_bounds L ltac:(lia) Hodd) as (Hh & Hceil & HLh).
  apply returns_inv in Hres as (_ & _ & _ & locals & Hprep & _).
  apply prepare_inv in Hprep as (series & _ & _ & _ & _ & -> & -> & _).
  rewrite half_window_nonneg in * by lia.
  unfold slice_stop, slice_start. rewrite half_window_nonneg by lia.
  rewrite !py_slice_negative_stop; rewrite ?length_map; try lia.
  split; reflexivity.
Qed.

(** With a label window of 1 the stop [-np.int(1/2)] is [-0], that is 0:
    whatever the series, the slices are empty. *)
Lemma label_window_one_empty (X : externals)
    (data : gmap string (list (num X))) (column_name : string) (W : Z)
    (sel : selection) (num_bin padding_RP : Z)
    (std_RP std_GASF std_GADF use_returns : bool)
    labelled_pd price_at_image images image_labels label_names :
  result (data_to_labelled_img X data column_name 1 W sel num_bin padding_RP
            std_RP std_GASF std_GADF use_returns)
  = Ok (RetTuple labelled_pd price_at_image images image_labels label_names) ->
  arows price_at_image = [] /\ arows image_labels = [].
Proof.
  intros Hres.
  apply returns_inv in Hres as (Hguard & _ & _ & locals & Hprep & _).
  apply prepare_inv in Hprep as (series & _ & _ & _ & _ & -> & -> & _).
  unfold window_too_small in Hguard. apply Z.ltb_ge in Hguard.
  change (np_ceil (true_div2 1)) with 1 in Hguard.
  change (slice_stop 1) with 0. simpl.
  rewrite !py_slice_stop_zero by (destruct use_returns; simpl; lia).
  split; reflexivity.
Qed.

(** C1, at the input where the code departs from it: a series of 8
    samples, label window 1, image window 3, price basis. The call returns
    empty price and label arrays, whereas rows 2 to 8 of the labelled table
    are the six rows 3, 4, 5, 6, 7, 8. *)
Theorem C1_label_window_one_returns_empty_slice :
  let r := data_to_labelled_img (Demo.world Demo.cycle3)
             (Demo.frame_of (Demo.ramp 8)) "Series" 1 3 (Str "GASF") 5 0
             false false false false in
  let labelled_pd := Demo.label_rows Demo.cycle3 (Demo.ramp 8) in
  Z.odd 1 = true /\ 1 <= Z.of_nat (length (Demo.ramp 8)) /\
  np_ceil (true_div2 1) <= 3 /\
  result r =
    Ok (@RetTuple (Demo.world Demo.cycle3) labelled_pd
          {| ncols := 1; arows := [] |} (Single [])
          {| ncols := 3; arows := [] |} fixed_label_names) /\
  range_of (map fst labelled_pd) (Z.to_nat (3 - 1)) (8 - Z.to_nat (1 / 2))
    = [3; 4; 5; 6; 7; 8].
Proof.
  vm_compute. repeat split; discriminate.
Qed.

(** ** The example of the module's entry point *)

(** C8, as amended: for a series of 40 samples labelled row by row, label
    window 3, image window 14, strategies RP, GASF and MTF, 4 bins, padding
    1 and the price basis, a call that returns gives [price_at_image] the
    shape (26, 1) and [image_labels] the shape (26, 3): the two agree on
    their first dimension, 26. *)
Theorem C8_example_shapes (X : externals)
    (data : gmap string (list (num X))) (series : list (num X))
    (std_RP std_GASF std_GADF : bool)
    labelled_pd price_at_image images image_labels label_names :
  data !! "Series" = Some series ->
  length series = 40%nat ->
  length labelled_pd = length series ->
  result (data_to_labelled_img X data "Series" 3 14 (Lst ["RP"; "GASF"; "MTF"])
            4 1 std_RP std_GASF std_GADF false)
  = Ok (RetTuple labelled_pd price_at_image images image_labels label_names) ->
  shape2 price_at_image = [26%nat; 1%nat] /\
  shape2 image_labels = [26%nat; 3%nat] /\
  firstn 1 (shape2 price_at_image) = firstn 1 (shape2 image_labels).
Proof.
  intros Hdata Hlen Hrows Hres.
  apply price_basis_range in Hres as [-> ->];
    [| lia | reflexivity | vm_compute; discriminate | lia].
  unfold shape2, reshape_column, range_of. simpl arows. simpl ncols.
  rewrite !length_map, !length_firstn, !length_skipn, !length_map.
  rewrite Hrows, Hlen. repeat split; reflexivity.
Qed.

Lemma demo_main_call_result :
  result Demo.main_call =
  Ok (RetTuple Demo.main_labelled Demo.main_price Demo.main_images
        Demo.main_labels fixed_label_names).
Proof. reflexivity. Qed.

Lemma demo_returns_call_result :
  result Demo.returns_call =
  Ok (RetTuple Demo.returns_labelled Demo.returns_price Demo.returns_images
        Demo.returns_labels fixed_label_names).
Proof. reflexivity. Qed.

Lemma C8_example_witness :
  shape2 Demo.main_price = [26%nat; 1%nat] /\
  shape2 Demo.main_labels = [26%nat; 3%nat] /\
  firstn 1 (shape2 Demo.main_price) = firstn 1 (shape2 Demo.main_labels).
Proof.
  apply (C8_example_shapes Demo.W3 (Demo.frame_of (Demo.ramp 40)) (Demo.ramp 40)
           false false false Demo.main_labelled Demo.main_price
           Demo.main_images Demo.main_labels fixed_label_names);
    reflexivity.
Defined.

(** C8, as stated, fails: in that example [price_at_image.shape] is
    (26, 1), a column, and [image_labels.shape[:1]] is (26,); the two
    tuples are not equal. *)
Lemma C8_price_shape_is_a_column :
  result Demo.main_call =
    Ok (RetTuple Demo.main_labelled Demo.main_price Demo.main_images
          Demo.main_labels fixed_label_names) /\
  length (Demo.ramp 40) = 40%nat /\
  shape2 Demo.main_price = [26%nat; 1%nat] /\
  firstn 1 (shape2 Demo.main_labels) = [26%nat] /\
  shape2 Demo.main_price <> firstn 1 (shape2 Demo.main_labels).
Proof.
  split; [exact demo_main_call_result |].
  repeat split; try reflexivity.
  intros H. vm_compute in H. discriminate H.
Qed.

(** ** The label encoder *)

(** C4, as amended: whenever the call returns its five results, the rows
    of [image_labels] are the indicators of (Sell, Buy, Hold) in that
    order for the sliced labels, three columns wide, and the label map is
    0: Sell, 1: Buy, 2: Hold; each of the three categories then occurs
    among the labels. *)
Theorem C4_returned_labels_follow_the_fixed_order (X : externals)
    (data : gmap string (list (num X))) (column_name : string) (L W : Z)
    (sel : selection) (num_bin padding_RP : Z)
    (std_RP std_GASF std_GADF use_returns : bool)
    labelled_pd price_at_image images image_labels label_names :
  result (data_to_labelled_img X data column_name L W sel num_bin padding_RP
            std_RP std_GASF std_GADF use_returns)
  = Ok (RetTuple labelled_pd price_at_image images image_labels label_names) ->
  (ncols image_labels = 3%nat /\
   arows image_labels =
     py_slice (map one_hot (map snd labelled_pd))
       (slice_start use_returns W) (slice_stop L)) /\
  (label_names = fixed_label_names /\
   label_names !! 0 = Some "Sell" /\ label_names !! 1 = Some "Buy" /\
   label_names !! 2 = Some "Hold") /\
  (In "Sell" (map snd labelled_pd) /\ In "Buy" (map snd labelled_pd) /\
   In "Hold" (map snd labelled_pd)).
Proof.
  intros Hres.
  apply returns_inv in Hres as (_ & _ & -> & locals & Hprep & _).
  apply prepare_inv in Hprep as (series & _ & _ & Hin & _ & -> & _ & _).
  repeat split; try reflexivity; apply Hin.
Qed.

Lemma C4_fixed_order_witness :
  arows Demo.main_labels =
    py_slice (map one_hot (map snd Demo.main_labelled)) (slice_start false 14)
      (slice_stop 3) /\
  fixed_label_names !! 2 = Some "Hold".
Proof.
  pose proof (C4_returned_labels_follow_the_fixed_order Demo.W3
                (Demo.frame_of (Demo.ramp 40)) "Series" 3 14
                (Lst ["RP"; "GASF"; "MTF"]) 4 1 false false false false
                Demo.main_labelled Demo.main_price Demo.main_images
                Demo.main_labels fixed_label_names eq_refl) as H.
  destruct H as ((_ & Hrows) & (_ & _ & _ & Hhold) & _).
  split; assumption.
Defined.

(** C4, as stated, fails: when only Hold occurs among the labels the
    column selection raises [KeyError] for Sell and Buy; no label array and
    no label map is returned. *)
Lemma C4_missing_category_raises_KeyError :
  let r := data_to_labelled_img (Demo.world Demo.all_hold)
             (Demo.frame_of (Demo.ramp 8)) "Series" 3 3 (Str "GASF") 5 0
             false false false false in
  result r = Raise (KeyError ["Sell"; "Buy"]) /\
  ~ exists labelled_pd price_at_image images image_labels label_names,
      result r =
      Ok (RetTuple labelled_pd price_at_image images image_labels label_names).
Proof.
  split; [reflexivity |].
  intros (lp & price & imgs & labels & names & H). discriminate H.
Qed.

(** C7, as amended: when Sell, Buy and Hold each occur, the encoding
    raises nothing whatever other labels occur; the column of another label
    is dropped by the column selection, and a row carrying such a label is
    the all-zero row. *)
Theorem C7_other_labels_become_zero_rows (strategy : list string) :
  In "Sell" strategy -> In "Buy" strategy -> In "Hold" strategy ->
  encode_labels strategy =
    Ok {| columns := label_order; frame_rows := map one_hot strategy |} /\
  forall label, In label strategy -> ~ In label label_order ->
    one_hot label = [false; false; false].
Proof.
  intros Hs Hb Hh. split.
  - now apply encode_labels_ok.
  - intros label _ Hout. now apply one_hot_outside.
Qed.

Lemma C7_zero_rows_witness :
  encode_labels ["Sell"; "Wait"; "Buy"; "Hold"] =
    Ok {| columns := label_order;
          frame_rows := map one_hot ["Sell"; "Wait"; "Buy"; "Hold"] |} /\
  one_hot "Wait" = [false; false; false].
Proof.
  destruct (C7_other_labels_become_zero_rows ["Sell"; "Wait"; "Buy"; "Hold"])
    as [Henc Hzero].
  - simpl. tauto.
  - simpl. tauto.
  - simpl. tauto.
  - split; [exact Henc |]. apply Hzero.
    + simpl. tauto.
    + vm_compute. intros [H | [H | [H | []]]]; discriminate H.
Defined.

(** C7, as stated, fails: with the label Wait among the labels the call
    does not fail. It returns its five results, and the row of Wait (the
    second of the slice) is all zero. *)
Lemma C7_outside_label_is_silently_dropped :
  let X := Demo.world Demo.cycle4 in
  let r := data_to_labelled_img X (Demo.frame_of (Demo.ramp 8)) "Series" 3 3
             (Str "GASF") 5 0 false false false false in
  let labelled_pd := Demo.label_rows Demo.cycle4 (Demo.ramp 8) in
  In "Wait" (map snd labelled_pd) /\ ~ In "Wait" label_order /\
  result r =
    Ok (@RetTuple X labelled_pd
          {| ncols := 1; arows := [[3]; [4]; [5]; [6]; [7]] |}
          (@Single X (map (Demo.outer Z.add)
                        (Demo.sliding 3 (py_slice_to (Demo.ramp 8) (-1)))))
          {| ncols := 3;
             arows := [[false; false; true]; [false; false; false];
                       [true; false; false]; [false; true; false];
                       [false; false; true]] |}
          fixed_label_names) /\
  ~ fails r.
Proof.
  repeat split.
  - vm_compute. tauto.
  - vm_compute. intros [H | [H | [H | []]]]; discriminate H.
  - intros [e He]. discriminate He.
Qed.

(** ** The image stacker *)

(** C10: a selection given as a one-element list never yields the five
    results; once the guard is passed and the data prepared, the [else]
    branch concatenates ["images_"] with the list and the call ends with a
    [TypeError], whether or not the name is a strategy. *)
Theorem C10_one_element_list_raises_TypeError (X : externals)
    (data : gmap string (list (num X))) (column_name : string) (L W : Z)
    (s : string) (num_bin padding_RP : Z)
    (std_RP std_GASF std_GADF use_returns : bool) :
  let r := data_to_labelled_img X data column_name L W (Lst [s]) num_bin
             padding_RP std_RP std_GASF std_GADF use_returns in
  (forall labelled_pd price_at_image images image_labels label_names,
     result r <>
     Ok (RetTuple labelled_pd price_at_image images image_labels label_names)) /\
  (window_too_small L W = false ->
   (exists st, prepare X data column_name L W (Lst [s]) num_bin padding_RP
                 std_RP std_GASF std_GADF use_returns = Ok st) ->
   result r = Raise concat_error).
Proof.
  intros r. split.
  - intros lp price imgs labels names Hres.
    apply returns_inv in Hres as (_ & _ & _ & locals & _ & Hasm).
    discriminate Hasm.
  - intros Hguard [[[[[lp price] labels] cols] locals] Hprep].
    unfold r. rewrite (result_after_prepare _ _ _ _ _ _ _ _ _ _ _ _ _ _ _ _ _
                         Hguard Hprep); [reflexivity | discriminate].
Qed.

Lemma C10_one_element_list_witness :
  result (data_to_labelled_img Demo.W3 (Demo.frame_of (Demo.ramp 8)) "Series"
            3 3 (Lst ["RP"]) 5 0 false false false false)
  = Raise concat_error.
Proof.
  apply (C10_one_element_list_raises_TypeError Demo.W3
           (Demo.frame_of (Demo.ramp 8)) "Series" 3 3 "RP" 5 0
           false false false false).
  - reflexivity.
  - eexists. reflexivity.
Defined.

(** C6, at the input where the code departs from it: the single strategy
    RP. Given as the string ["RP"] the call returns the RP images without
    a channel axis; given as the list [["RP"]] the same request ends with
    a [TypeError] and returns nothing. *)
Theorem C6_single_strategy_in_a_list_is_not_returned :
  let call := fun sel =>
    data_to_labelled_img Demo.W3 (Demo.frame_of (Demo.ramp 8)) "Series" 3 3
      sel 5 0 false false false false in
  let rp_images :=
    map (fun w => Demo.pad 0 (Demo.outer Z.mul (Demo.steps w)))
      (Demo.sliding 3 (py_slice_to (Demo.ramp 8) (-1))) in
  is_known "RP" = true /\
  result (call (Str "RP")) =
    Ok (@RetTuple Demo.W3 (Demo.label_rows Demo.cycle3 (Demo.ramp 8))
          {| ncols := 1; arows := [[3]; [4]; [5]; [6]; [7]] |}
          (@Single Demo.W3 rp_images)
          {| ncols := 3;
             arows := [[false; false; true]; [true; false; false];
                       [false; true; false]; [false; false; true];
                       [true; false; false]] |}
          fixed_label_names) /\
  result (call (Lst ["RP"])) = Raise concat_error.
Proof.
  repeat split.
Qed.

(** ** Names that are no strategy *)

Lemma is_known_In (s : string) : is_known s = true <-> In s known_strategies.
Proof.
  unfold is_known. rewrite existsb_exists. split.
  - intros (t & Ht & Heq). apply String.eqb_eq in Heq. now subst.
  - intros Hin. exists s. split; [exact Hin | apply String.eqb_refl].
Qed.

Lemma sel_contains_list (s : string) (l : list string) :
  In s l -> sel_contains s (Lst l) = true.
Proof.
  intros Hin. simpl. apply existsb_exists. exists s.
  split; [exact Hin | apply String.eqb_refl].
Qed.

Section Names.

Variable X : externals.
Variables (series : list (num X)) (L W : Z) (sel : selection).
Variables (num_bin padding_RP : Z) (std_RP std_GASF std_GADF : bool).
Variable locals : gmap string (list (list (list (pixel X)))).

Hypothesis Hdispatch :
  dispatch X series L W sel num_bin padding_RP std_RP std_GASF std_GADF
    = Ok locals.

Lemma unknown_is_unbound (x : string) :
  is_known x = false -> locals !! image_var x = None.
Proof.
  intros Hx. destruct (locals !! image_var x) as [a |] eqn:Hlook; [| reflexivity].
  destruct (dispatch_names X _ _ _ _ _ _ _ _ _ _ (image_var x) Hdispatch)
    as (s & Hs & Heq); [now exists a |].
  apply image_var_inj in Heq. subst s.
  apply is_known_In in Hs. congruence.
Qed.

Lemma known_is_bound (s : string) :
  is_known s = true -> sel_contains s sel = true ->
  exists a,
    transform_call X series L W num_bin padding_RP std_RP std_GASF std_GADF s
      = Ok a /\
    locals !! image_var s = Some a.
Proof.
  intros Hs Hsel. apply is_known_In in Hs.
  pose proof (dispatch_bindings X _ _ _ _ _ _ _ _ _ _ Hdispatch s Hs) as Hb.
  unfold binding in Hb. now rewrite Hsel in Hb.
Qed.

(** The loop over the names stops at the first one that is no strategy. *)
Lemma loop_stops_at_first_unknown (l : list string) (x : string) :
  forallb plain_name l = true ->
  (forall s, In s l -> sel_contains s sel = true) ->
  first_unknown l = Some x ->
  omapM (eval_images X locals) l = Raise (NameError (image_var x)).
Proof.
  induction l as [| s l IH]; simpl; [discriminate |].
  intros [Hs Hl]%andb_true_iff Hsel Hfirst.
  rewrite (eval_images_plain X locals s Hs).
  destruct (is_known s) eqn:Hk; simpl in Hfirst.
  - destruct (known_is_bound s Hk (Hsel s (or_introl eq_refl)))
      as (a & _ & ->). simpl.
    rewrite IH; auto.
  - injection Hfirst as <-. now rewrite (unknown_is_unbound s Hk).
Qed.

(** The loop over strategy names collects their arrays, in order. *)
Lemma loop_collects_known (l : list string) :
  (forall s, In s l -> is_known s = true /\ sel_contains s sel = true) ->
  exists arrays,
    omapM (eval_images X locals) l = Ok (map inl arrays) /\
    Forall2 (fun s a =>
               transform_call X series L W num_bin padding_RP std_RP std_GASF
                 std_GADF s = Ok a) l arrays.
Proof.
  induction l as [| s l IH]; intros Hall.
  - exists []. split; [reflexivity | constructor].
  - destruct (Hall s (or_introl eq_refl)) as [Hk Hsel].
    destruct (known_is_bound s Hk Hsel) as (a & Hcall & Hlook).
    destruct IH as (arrays & Hloop & Hcalls).
    { intros t Ht. apply Hall. now right. }
    exists (a :: arrays). split; [| now constructor].
    simpl. rewrite (eval_images_plain X locals s), Hlook.
    + simpl. now rewrite Hloop.
    + apply known_strategy_plain. now apply is_known_In.
Qed.

End Names.

(** C9, as amended: in a call that has passed the guard and prepared its
    data, with a selection that is a non-empty string or a list of two
    names or more, all made of letters, digits and underscores, the first
    name that is no strategy ends the call with [NameError] for the
    variable [images_<name>]. *)
Theorem C9_unknown_plain_name_raises_NameError (X : externals)
    (data : gmap string (list (num X))) (column_name : string) (L W : Z)
    (sel : selection) (num_bin padding_RP : Z)
    (std_RP std_GASF std_GADF use_returns : bool) (x : string) :
  window_too_small L W = false ->
  (exists st, prepare X data column_name L W sel num_bin padding_RP
                std_RP std_GASF std_GADF use_returns = Ok st) ->
  reaches_eval sel = true ->
  forallb plain_name (names_of sel) = true ->
  first_unknown (names_of sel) = Some x ->
  result (data_to_labelled_img X data column_name L W sel num_bin padding_RP
            std_RP std_GASF std_GADF use_returns)
  = Raise (NameError (image_var x)).
Proof.
  intros Hguard [[[[[lp price] labels] cols] locals] Hprep] Hreach Hplain Hfirst.
  pose proof (prepare_inv _ _ _ _ _ _ _ _ _ _ _ _ _ _ _ _ _ Hprep)
    as (series & _ & _ & _ & _ & _ & _ & Hdis).
  rewrite (result_after_prepare _ _ _ _ _ _ _ _ _ _ _ _ _ _ _ _ _ Hguard Hprep).
  - destruct sel as [s | l];
      cbn [names_of reaches_eval sel_len assemble_images forallb first_unknown]
        in *.
    + apply andb_true_iff in Hplain as [Hs _].
      rewrite (eval_images_plain X locals s Hs).
      unfold first_unknown in Hfirst. simpl in Hfirst.
      destruct (is_known s) eqn:Hk; simpl in Hfirst; [discriminate |].
      injection Hfirst as <-.
      now rewrite (unknown_is_unbound X _ _ _ _ _ _ _ _ _ _ Hdis s Hk).
    + apply Nat.leb_le in Hreach.
      destruct (Z.ltb_spec 1 (Z.of_nat (length l))); [| lia].
      rewrite (loop_stops_at_first_unknown X _ _ _ _ _ _ _ _ _ _ Hdis l x);
        auto using sel_contains_list.
  - destruct sel as [s | l]; cbn [reaches_eval sel_len] in *.
    + destruct s; [discriminate | simpl; lia].
    + apply Nat.leb_le in Hreach. lia.
Qed.

Lemma C9_unknown_plain_name_witness :
  result (data_to_labelled_img Demo.W3 (Demo.frame_of (Demo.ramp 8)) "Series"
            3 3 (Lst ["RP"; "FOO"; "GASF"]) 5 0 false false false false)
  = Raise (NameError "images_FOO").
Proof.
  apply (C9_unknown_plain_name_raises_NameError Demo.W3
           (Demo.frame_of (Demo.ramp 8)) "Series" 3 3
           (Lst ["RP"; "FOO"; "GASF"]) 5 0 false false false false "FOO").
  - reflexivity.
  - eexists. reflexivity.
  - reflexivity.
  - reflexivity.
  - reflexivity.
Defined.

(** C9, as stated, fails: the name ["GASF "], with a blank at its end,
    is none of the four strategies, yet the call raises nothing. As a
    string it contains ["GASF"], so the GASF images are made, and the text
    ["images_GASF "] evaluates to them: the call returns its five results. *)
Lemma C9_unknown_name_is_accepted :
  let r := data_to_labelled_img Demo.W3 (Demo.frame_of (Demo.ramp 8)) "Series"
             3 3 (Str "GASF ") 5 0 false false false false in
  ~ In "GASF " known_strategies /\
  result r =
    Ok (@RetTuple Demo.W3 (Demo.label_rows Demo.cycle3 (Demo.ramp 8))
          {| ncols := 1; arows := [[3]; [4]; [5]; [6]; [7]] |}
          (@Single Demo.W3
             (map (Demo.outer Z.add)
                (Demo.sliding 3 (py_slice_to (Demo.ramp 8) (-1)))))
          {| ncols := 3;
             arows := [[false; false; true]; [true; false; false];
                       [false; true; false]; [false; false; true];
                       [true; false; false]] |}
          fixed_label_names) /\
  ~ fails r.
Proof.
  repeat split.
  - intros [H | [H | [H | [H | []]]]]; discriminate H.
  - intros [e He]. discriminate He.
Qed.

(** ** Equal lengths of the three outputs *)

Lemma py_slice_length_eq {A B : Type} (l : list A) (k : list B) (start stop : Z) :
  length l = length k ->
  length (py_slice l start stop) = length (py_slice k start stop).
Proof.
  intros Hlen. apply Nat2Z.inj. rewrite !py_slice_length, Hlen. reflexivity.
Qed.

Lemma return_series_length (X : externals) (series : list (num X)) :
  Z.of_nat (length (return_series X series)) =
  Z.max (Z.of_nat (length series) - 1) 0.
Proof.
  unfold return_series, py_slice_from, py_slice_to.
  rewrite length_zip_with, Nat2Z.inj_min, !py_slice_length.
  unfold clamp_index.
  change (1 <? 0) with false. change (-1 <? 0) with true.
  change (0 <? 0) with false.
  destruct (Z.ltb_spec (Z.of_nat (length series)) 0); lia.
Qed.

(** The index arithmetic behind the alignment: the slice of the labelled
    table holds as many rows as there are windows of size [W] in the
    trimmed series, on either basis. *)
Lemma aligned_count (N L W : Z) (use_returns : bool) :
  0 <= N -> 0 < L -> Z.odd L = true -> np_ceil (true_div2 L) <= W ->
  let N' := if use_returns then Z.max (N - 1) 0 else N in
  let trimmed_len :=
    Z.max 0 (clamp_index N' (slice_stop L) - clamp_index N' 0) in
  0 <= trimmed_len - W + 1 ->
  Z.max 0 (clamp_index N (slice_stop L)
           - clamp_index N (slice_start use_returns W))
  = trimmed_len - W + 1.
Proof.
  intros HN HL Hodd HW.
  destruct (odd_window_bounds L HL Hodd) as (Hh & Hceil & _).
  unfold slice_stop, slice_start, clamp_index.
  generalize dependent (half_window L). intros h Hh Hceil.
  destruct use_returns; simpl;
    destruct (Z.ltb_spec (- h) 0); destruct (Z.ltb_spec W 0);
    destruct (Z.ltb_spec (W - 1) 0); lia.
Qed.

Lemma Forall2_In_right {A B : Type} (P : A -> B -> Prop) (l : list A)
    (k : list B) (y : B) :
  Forall2 P l k -> In y k -> exists x, In x l /\ P x y.
Proof.
  induction 1 as [| x z l k Hxz _ IH]; simpl; [tauto |].
  intros [<- | Hin].
  - exists x. split; [now left | exact Hxz].
  - destruct (IH Hin) as (x' & Hx' & HP). exists x'. split; [now right | exact HP].
Qed.

Lemma known_string_contains_itself (s : string) :
  is_known s = true -> sel_contains s (Str s) = true.
Proof.
  intros Hs. apply is_known_In in Hs. unfold known_strategies in Hs.
  simpl in Hs. destruct Hs as [<- | [<- | [<- | [<- | []]]]]; reflexivity.
Qed.

(** C2: for an odd positive label window, an image window of at least
    [ceil(L/2)] and a selection of strategy names, on either basis: if the
    labelled table has one row per sample, every transform called returns
    (length of the trimmed series) - W + 1 images and, for a list
    selection, the images have one common shape, then a call that returns
    has [len(images) = len(image_labels) = len(price_at_image)]. *)
Theorem C2_outputs_have_equal_length (X : externals)
    (data : gmap string (list (num X))) (column_name : string) (L W : Z)
    (sel : selection) (num_bin padding_RP : Z)
    (std_RP std_GASF std_GADF use_returns : bool)
    (series : list (num X)) (hw : nat * nat)
    labelled_pd price_at_image images image_labels label_names :
  0 < L -> Z.odd L = true -> np_ceil (true_div2 L) <= W ->
  valid_selection sel = true ->
  data !! column_name = Some series ->
  length labelled_pd = length series ->
  let series' := if use_returns then return_series X series else series in
  let trimmed := py_slice_to series' (slice_stop L) in
  let call := transform_call X series' L W num_bin padding_RP std_RP std_GASF
                std_GADF in
  (forall s a, In s (names_of sel) -> call s = Ok a ->
     Z.of_nat (length a) = Z.of_nat (length trimmed) - W + 1) ->
  (forall l s a, sel = Lst l -> In s l -> call s = Ok a ->
     forallb (regular_image hw) a = true) ->
  result (data_to_labelled_img X data column_name L W sel num_bin padding_RP
            std_RP std_GASF std_GADF use_returns)
  = Ok (RetTuple labelled_pd price_at_image images image_labels label_names) ->
  tensor_len images = Some (length (arows image_labels)) /\
  length (arows image_labels) = length (arows price_at_image).
Proof.
  intros HL Hodd HW Hvalid Hdata Hrows series' trimmed call Hcount Hshape Hres.
  apply returns_inv in Hres as (Hguard & Hlen & -> & locals & Hprep & Hasm).
  apply prepare_inv in Hprep as (series0 & Hdata0 & _ & _ & _ & -> & -> & Hdis).
  rewrite Hdata in Hdata0. injection Hdata0 as <-. fold series' in Hdis.
  cbn [arows reshape_column].
  assert (forall a : list (list (list (pixel X))),
            Z.of_nat (length a) = Z.of_nat (length trimmed) - W + 1 ->
            length a =
            length (py_slice (map one_hot (map snd labelled_pd))
                      (slice_start use_returns W) (slice_stop L))) as Hsame.
  { intros a Ha. apply Nat2Z.inj.
    rewrite py_slice_length, !length_map, Hrows, Ha.
    assert (Z.of_nat (length series') =
            if use_returns then Z.max (Z.of_nat (length series) - 1) 0
            else Z.of_nat (length series)) as Hlen'.
    { unfold series'.
      destruct use_returns; [apply return_series_length | reflexivity]. }
    assert (Z.of_nat (length trimmed) =
            Z.max 0 (clamp_index (Z.of_nat (length series')) (slice_stop L)
                     - clamp_index (Z.of_nat (length series')) 0)) as Htrim.
    { unfold trimmed, py_slice_to. apply py_slice_length. }
    rewrite Hlen' in Htrim. symmetry. rewrite Htrim.
    apply aligned_count; try assumption; [lia |].
    rewrite <- Htrim. lia. }
  split.
  2: { rewrite length_map. apply py_slice_length_eq. now rewrite !length_map. }
  destruct sel as [s | l]; cbn [valid_selection names_of assemble_images] in *.
  - rewrite (eval_images_plain X locals s) in Hasm
      by (apply known_strategy_plain; now apply is_known_In).
    destruct (known_is_bound X _ _ _ _ _ _ _ _ _ _ Hdis s Hvalid
                (known_string_contains_itself s Hvalid)) as (a & Hcall & Hlook).
    rewrite Hlook in Hasm. injection Hasm as <-. simpl. f_equal.
    apply Hsame. apply (Hcount s a); [now left | exact Hcall].
  - apply andb_true_iff in Hvalid as [_ Hknown].
    rewrite forallb_forall in Hknown.
    destruct (Z.ltb_spec 1 (sel_len (Lst l))) as [Hmany | Hone];
      [| discriminate Hasm].
    destruct (loop_collects_known X _ _ _ _ _ _ _ _ _ _ Hdis l)
      as (arrays & Hloop & Hcalls).
    { intros s Hs. split; [now apply Hknown | now apply sel_contains_list]. }
    rewrite Hloop in Hasm. cbn [obind] in Hasm.
    assert (Forall (well_shaped
                      (length (py_slice (map one_hot (map snd labelled_pd))
                                 (slice_start use_returns W) (slice_stop L)))
                      hw) arrays) as Hwell.
    { apply Forall_forall. intros a Ha.
      apply list_elem_of_In in Ha.
      apply (Forall2_In_right _ _ _ _ Hcalls) in Ha as (s & Hs & Hcall).
      split.
      - apply Hsame. now apply (Hcount s a).
      - exact (Hshape l s a eq_refl Hs Hcall). }
    destruct arrays as [| a rest].
    { apply Forall2_length in Hcalls. simpl in Hmany, Hcalls. lia. }
    rewrite (np_stack_well_shaped X _ hw a rest Hwell) in Hasm.
    injection Hasm as <-. simpl. f_equal.
    apply moveaxis_length. eapply Forall_impl; [exact Hwell |].
    intros a' [Ha' _]. exact Ha'.
Qed.

Lemma C2_equal_length_witness :
  tensor_len Demo.returns_images = Some (length (arows Demo.returns_labels)) /\
  length (arows Demo.returns_labels) = length (arows Demo.returns_price).
Proof.
  apply (C2_outputs_have_equal_length Demo.W3 (Demo.frame_of (Demo.ramp 8))
           "Series" 3 3 (Lst ["RP"; "GASF"; "MTF"]) 4 1 false false false true
           (Demo.ramp 8) (3%nat, 3%nat) Demo.returns_labelled Demo.returns_price
           Demo.returns_images Demo.returns_labels fixed_label_names).
  - reflexivity.
  - reflexivity.
  - vm_compute. discriminate.
  - reflexivity.
  - reflexivity.
  - reflexivity.
  - intros s a [<- | [<- | [<- | []]]] Hcall;
      vm_compute in Hcall; injection Hcall as <-; reflexivity.
  - intros l s a [= <-] [<- | [<- | [<- | []]]] Hcall;
      vm_compute in Hcall; injection Hcall as <-; reflexivity.
  - reflexivity.
Defined.

(** ** What a successful call stacks *)

Lemma regular_image_entry {A : Type} (hw : nat * nat) (img : list (list A))
    (r c : nat) :
  regular_image hw img = true ->
  (r < fst hw)%nat -> (c < snd hw)%nat ->
  is_Some (img !! r ≫= fun row => row !! c).
Proof.
  unfold regular_image. intros [Hlen Hrows]%andb_true_iff Hr Hc.
  apply Nat.eqb_eq in Hlen.
  destruct (lookup_lt_is_Some_2 img r) as [row Hrow]; [lia |].
  rewrite Hrow. simpl. apply lookup_lt_is_Some_2.
  rewrite forallb_forall in Hrows.
  assert (In row img) as Hin.
  { apply list_elem_of_In, list_elem_of_lookup. now exists r. }
  apply Hrows, Nat.eqb_eq in Hin. lia.
Qed.

Lemma regular_image_bounds {A : Type} (hw : nat * nat) (img : list (list A))
    (r c : nat) (p : A) :
  regular_image hw img = true ->
  (img !! r ≫= fun row => row !! c) = Some p ->
  (r < fst hw)%nat /\ (c < snd hw)%nat.
Proof.
  unfold regular_image. intros [Hlen Hrows]%andb_true_iff Hp.
  apply Nat.eqb_eq in Hlen.
  destruct (img !! r) as [row |] eqn:Hrow; simpl in Hp; [| discriminate].
  split.
  - rewrite <- Hlen. now apply lookup_lt_Some in Hrow.
  - rewrite forallb_forall in Hrows.
    assert (In row img) as Hin.
    { apply list_elem_of_In, list_elem_of_lookup. now exists r. }
    apply Hrows, Nat.eqb_eq in Hin. rewrite <- Hin.
    now apply lookup_lt_Some in Hp.
Qed.

(** Arrays of one shape have their entries at the same places. *)
Lemma well_shaped_entries {A : Type} (n : nat) (hw : nat * nat)
    (a a' : list (list (list A))) (i r c : nat) (p : A) :
  well_shaped n hw a -> well_shaped n hw a' ->
  entry3 a i r c = Some p -> is_Some (entry3 a' i r c).
Proof.
  unfold entry3. intros [Hn Hreg] [Hn' Hreg'] Hp.
  destruct (a !! i) as [img |] eqn:Himg; simpl in Hp; [| discriminate].
  rewrite forallb_forall in Hreg, Hreg'.
  assert (In img a) as Hin.
  { apply list_elem_of_In, list_elem_of_lookup. now exists i. }
  destruct (regular_image_bounds hw img r c p (Hreg img Hin) Hp) as [Hr Hc].
  destruct (lookup_lt_is_Some_2 a' i) as [img' Himg'].
  { rewrite Hn', <- Hn. now apply lookup_lt_Some in Himg. }
  rewrite Himg'. simpl. apply (regular_image_entry hw); try assumption.
  apply Hreg'. apply list_elem_of_In, list_elem_of_lookup. now exists i.
Qed.

Lemma entries_across {A : Type} (i r c : nat)
    (arrays : list (list (list (list A)))) :
  Forall (fun a => is_Some (entry3 a i r c)) arrays ->
  exists v, Forall2 (fun a p => entry3 a i r c = Some p) arrays v.
Proof.
  induction 1 as [| a arrays [p Hp] _ [v Hv]].
  - exists []. constructor.
  - exists (p :: v). now constructor.
Qed.

(** The stack of arrays of one shape: entry [(i, r, c)] holds, at
    position [ch], the entry [(i, r, c)] of array [ch]. *)
Lemma stack_channel {A : Type} (n : nat) (hw : nat * nat)
    (a0 : list (list (list A))) (rest : list (list (list (list A))))
    (ch : nat) (a : list (list (list A))) (i r c : nat) (p : A) :
  Forall (well_shaped n hw) (a0 :: rest) ->
  (a0 :: rest) !! ch = Some a ->
  entry3 a i r c = Some p ->
  exists v,
    entry3 (moveaxis_first_to_last (a0 :: rest)) i r c = Some v /\
    v !! ch = Some p /\ length v = length (a0 :: rest).
Proof.
  intros Hwell Hch Hp.
  assert (well_shaped n hw a) as Ha.
  { rewrite Forall_forall in Hwell. apply Hwell, list_elem_of_lookup. now exists ch. }
  destruct (entries_across i r c (a0 :: rest)) as [v Hv].
  { eapply Forall_impl; [exact Hwell |]. intros a' Ha'.
    now apply (well_shaped_entries n hw a a' i r c p). }
  exists v. split; [now apply moveaxis_entry |]. split.
  - destruct (Forall2_lookup_l _ _ _ _ _ Hv Hch) as (q & Hq & Hpq).
    rewrite Hq. congruence.
  - symmetry. now apply Forall2_length in Hv.
Qed.

Section Stacker.

Variable X : externals.
Variables (data : gmap string (list (num X))) (column_name : string).
Variables (L W : Z) (num_bin padding_RP : Z).
Variables (std_RP std_GASF std_GADF use_returns : bool).
Variable series : list (num X).

Hypothesis Hdata : data !! column_name = Some series.

Let series' : list (num X) :=
  if use_returns then return_series X series else series.

Let call : string -> outcome (list (list (list (pixel X)))) :=
  transform_call X series' L W num_bin padding_RP std_RP std_GASF std_GADF.

(** One strategy, named by a string: its images come back as they are,
    without a channel axis. *)
Lemma string_selection_returns_the_array (s : string)
    labelled_pd price_at_image images image_labels label_names :
  is_known s = true ->
  result (data_to_labelled_img X data column_name L W (Str s) num_bin
            padding_RP std_RP std_GASF std_GADF use_returns)
  = Ok (RetTuple labelled_pd price_at_image images image_labels label_names) ->
  exists a, call s = Ok a /\ images = Single a.
Proof.
  intros Hs Hres.
  apply returns_inv in Hres as (_ & _ & _ & locals & Hprep & Hasm).
  apply prepare_inv in Hprep as (series0 & Hdata0 & _ & _ & _ & _ & _ & Hdis).
  rewrite Hdata in Hdata0. injection Hdata0 as <-. fold series' in Hdis.
  cbn [assemble_images] in Hasm.
  rewrite (eval_images_plain X locals s) in Hasm
    by (apply known_strategy_plain; now apply is_known_In).
  destruct (known_is_bound X _ _ _ _ _ _ _ _ _ _ Hdis s Hs
              (known_string_contains_itself s Hs)) as (a & Hcall & Hlook).
  rewrite Hlook in Hasm. injection Hasm as <-.
  exists a. split; [exact Hcall | reflexivity].
Qed.

(** Two strategies or more, in a list, with images of one shape: the
    result is the channels-last stack, channel [ch] holding the images of
    the strategy at position [ch] of the list. *)
Lemma stacked_channels (l : list string) (n : nat) (hw : nat * nat)
    labelled_pd price_at_image images image_labels label_names :
  forallb is_known l = true ->
  (forall s a, In s l -> call s = Ok a -> well_shaped n hw a) ->
  result (data_to_labelled_img X data column_name L W (Lst l) num_bin
            padding_RP std_RP std_GASF std_GADF use_returns)
  = Ok (RetTuple labelled_pd price_at_image images image_labels label_names) ->
  exists t,
    images = Stacked t /\
    forall ch s, l !! ch = Some s ->
      exists a, call s = Ok a /\
        forall i r c p, entry3 a i r c = Some p ->
          exists v, entry3 t i r c = Some v /\ v !! ch = Some p /\
                    length v = length l.
Proof.
  intros Hknown Hshape Hres.
  apply returns_inv in Hres as (_ & _ & _ & locals & Hprep & Hasm).
  apply prepare_inv in Hprep as (series0 & Hdata0 & _ & _ & _ & _ & _ & Hdis).
  rewrite Hdata in Hdata0. injection Hdata0 as <-. fold series' in Hdis.
  cbn [assemble_images] in Hasm.
  rewrite forallb_forall in Hknown.
  destruct (Z.ltb_spec 1 (sel_len (Lst l))) as [Hmany | Hone];
    [| discriminate Hasm].
  destruct (loop_collects_known X _ _ _ _ _ _ _ _ _ _ Hdis l)
    as (arrays & Hloop & Hcalls).
  { intros s Hs. split; [now apply Hknown | now apply sel_contains_list]. }
  fold call in Hcalls.
  rewrite Hloop in Hasm. cbn [obind] in Hasm.
  assert (Forall (well_shaped n hw) arrays) as Hwell.
  { apply Forall_forall. intros a Ha. apply list_elem_of_In in Ha.
    apply (Forall2_In_right _ _ _ _ Hcalls) in Ha as (s & Hs & Hcall).
    now apply (Hshape s a). }
  destruct arrays as [| a0 rest].
  { apply Forall2_length in Hcalls. simpl in Hmany, Hcalls. lia. }
  rewrite (np_stack_well_shaped X n hw a0 rest Hwell) in Hasm.
  injection Hasm as <-.
  exists (moveaxis_first_to_last (a0 :: rest)). split; [reflexivity |].
  intros ch s Hch.
  destruct (Forall2_lookup_l _ _ _ _ _ Hcalls Hch) as (a & Ha & Hcall).
  exists a. split; [exact Hcall |].
  intros i r c p Hp.
  destruct (stack_channel n hw a0 rest ch a i r c p Hwell Ha Hp)
    as (v & Hv & Hvch & Hlen).
  exists v. repeat split; try assumption.
  rewrite Hlen. symmetry. now apply Forall2_length in Hcalls.
Qed.

End Stacker.

(** * Further properties of the function *)

(** ** The guard and the early returns *)


(** Past the guard, a column name that the table does not have ends the
    call with [KeyError] for that name, before the labeller is called and
    whatever the selection is. *)
Theorem missing_column_raises_KeyError (X : externals)
    (data : gmap string (list (num X))) (column_name : string) (L W : Z)
    (sel : selection) (num_bin padding_RP : Z)
    (std_RP std_GASF std_GADF use_returns : bool) :
  window_too_small L W = false ->
  data !! column_name = None ->
  data_to_labelled_img X data column_name L W sel num_bin padding_RP
    std_RP std_GASF std_GADF use_returns
  = {| stdout := []; result := Raise (KeyError [column_name]) |}.
Proof.
  intros Hguard Hmiss. unfold data_to_labelled_img, prepare.
  rewrite Hguard, Hmiss. reflexivity.
Qed.

Lemma missing_column_witness :
  data_to_labelled_img Demo.W3 (Demo.frame_of (Demo.ramp 8)) "Close" 3 3
    (Str "GASF") 5 0 false false false false
  = {| stdout := []; result := Raise (KeyError ["Close"]) |}.
Proof.
  apply missing_column_raises_KeyError; reflexivity.
Defined.

(** The preparation succeeds when the column exists, the labeller
    returns a table in which Sell, Buy and Hold each occur, and the
    dispatch succeeds. *)
Lemma prepare_ok (X : externals)
    (data : gmap string (list (num X))) (column_name : string) (L W : Z)
    (sel : selection) (num_bin padding_RP : Z)
    (std_RP std_GASF std_GADF use_returns : bool)
    (series : list (num X)) (labelled_pd : list (num X * string)) locals :
  data !! column_name = Some series ->
  local_min_max X series L = Ok labelled_pd ->
  In "Sell" (map snd labelled_pd) -> In "Buy" (map snd labelled_pd) ->
  In "Hold" (map snd labelled_pd) ->
  dispatch X (imaging_series X use_returns series) L W sel num_bin padding_RP
    std_RP std_GASF std_GADF = Ok locals ->
  prepare X data column_name L W sel num_bin padding_RP std_RP std_GASF
    std_GADF use_returns
  = Ok (labelled_pd,
        reshape_column (py_slice (map fst labelled_pd)
                          (slice_start use_returns W) (slice_stop L)),
        {| ncols := 3;
           arows := py_slice (map one_hot (map snd labelled_pd))
                      (slice_start use_returns W) (slice_stop L) |},
        label_order, locals).
Proof.
  intros Hdata Hlab Hs Hb Hh Hdis. unfold prepare, imaging_series in *.
  rewrite Hdata. cbn [obind]. rewrite Hlab. cbn [obind].
  rewrite (encode_labels_ok _ Hs Hb Hh). cbn [obind]. rewrite Hdis.
  reflexivity.
Qed.

Lemma empty_selection_contains_nothing (sel : selection) (name : string) :
  sel_len sel = 0 -> name <> EmptyString -> sel_contains name sel = false.
Proof.
  destruct sel as [s | l]; simpl; intros Hlen Hname.
  - destruct s; [| simpl in Hlen; lia].
    destruct name; [contradiction | reflexivity].
  - destruct l; [reflexivity | simpl in Hlen; lia].
Qed.

(** An empty selection, the empty string or the empty list, is noticed
    only after the table is labelled and encoded: then no transform is
    called, the strategy message is printed and the empty tuple returned. *)
Theorem empty_selection_prints_and_returns_empty_tuple (X : externals)
    (data : gmap string (list (num X))) (column_name : string) (L W : Z)
    (sel : selection) (num_bin padding_RP : Z)
    (std_RP std_GASF std_GADF use_returns : bool)
    (series : list (num X)) (labelled_pd : list (num X * string)) :
  sel_len sel = 0 ->
  window_too_small L W = false ->
  data !! column_name = Some series ->
  local_min_max X series L = Ok labelled_pd ->
  In "Sell" (map snd labelled_pd) -> In "Buy" (map snd labelled_pd) ->
  In "Hold" (map snd labelled_pd) ->
  data_to_labelled_img X data column_name L W sel num_bin padding_RP
    std_RP std_GASF std_GADF use_returns
  = {| stdout := [strategy_message]; result := Ok RetEmpty |}.
Proof.
  intros Hlen Hguard Hdata Hlab Hs Hb Hh.
  assert (dispatch X (imaging_series X use_returns series) L W sel num_bin
            padding_RP std_RP std_GASF std_GADF = Ok ∅) as Hdis.
  { unfold dispatch, bind_if.
    rewrite !(empty_selection_contains_nothing sel) by (assumption || discriminate).
    reflexivity. }
  unfold data_to_labelled_img.
  rewrite Hguard, (prepare_ok X _ _ _ _ _ _ _ _ _ _ _ _ _ _
                     Hdata Hlab Hs Hb Hh Hdis), Hlen.
  reflexivity.
Qed.

Lemma empty_selection_witness :
  data_to_labelled_img Demo.W3 (Demo.frame_of (Demo.ramp 8)) "Series" 3 3
    (Lst []) 5 0 false false false false
  = {| stdout := [strategy_message]; result := Ok RetEmpty |}.
Proof.
  apply (empty_selection_prints_and_returns_empty_tuple Demo.W3 _ _ _ _ _ _ _
           _ _ _ _ (Demo.ramp 8) (Demo.label_rows Demo.cycle3 (Demo.ramp 8)));
    try reflexivity; vm_compute; tauto.
Defined.

(** The call prints exactly when it returns the empty tuple, and then
    exactly one of its two messages; a call that returns its five results
    or raises prints nothing. *)
Theorem prints_exactly_when_returning_the_empty_tuple (X : externals)
    (data : gmap string (list (num X))) (column_name : string) (L W : Z)
    (sel : selection) (num_bin padding_RP : Z)
    (std_RP std_GASF std_GADF use_returns : bool) :
  let r := data_to_labelled_img X data column_name L W sel num_bin padding_RP
             std_RP std_GASF std_GADF use_returns in
  (result r = Ok RetEmpty /\
   (stdout r = [window_message] \/ stdout r = [strategy_message])) \/
  (result r <> Ok RetEmpty /\ stdout r = []).
Proof.
  intros r. unfold r, data_to_labelled_img.
  destruct (window_too_small L W); [left; split; [reflexivity | now left] |].
  destruct (prepare X data column_name L W sel num_bin padding_RP std_RP
              std_GASF std_GADF use_returns)
    as [[[[[lp price] labels] cols] locals] | e].
  - destruct (sel_len sel =? 0); [left; split; [reflexivity | now right] |].
    right. split; [| reflexivity]. cbn [result].
    destruct (label_name_map cols); cbn [obind]; [| discriminate].
    destruct (assemble_images X sel locals); cbn [obind]; discriminate.
  - right. split; [discriminate | reflexivity].
Qed.

(** ** The labelled table and its slices *)

Lemma py_slice_map {A B : Type} (f : A -> B) (l : list A) (start stop : Z) :
  py_slice (map f l) start stop = map f (py_slice l start stop).
Proof.
  unfold py_slice. rewrite length_map, skipn_map, firstn_map. reflexivity.
Qed.

(** A slice reads consecutive positions, from the clamped start on. *)
Lemma py_slice_lookup {A : Type} (l : list A) (start stop : Z) (i : nat) (x : A) :
  py_slice l start stop !! i = Some x ->
  l !! (Z.to_nat (clamp_index (Z.of_nat (length l)) start) + i)%nat = Some x.
Proof.
  unfold py_slice. intros Hi.
  apply lookup_take_Some in Hi as [Hi _]. now rewrite lookup_drop in Hi.
Qed.

Lemma py_slice_In {A : Type} (l : list A) (start stop : Z) (x : A) :
  In x (py_slice l start stop) -> In x l.
Proof.
  intros Hin. apply list_elem_of_In, list_elem_of_lookup in Hin as [i Hi].
  apply py_slice_lookup in Hi.
  apply list_elem_of_In, list_elem_of_lookup. eauto.
Qed.

(** The table returned first is the labeller's, as it made it from the
    values of the column and the label window; on the returns basis too the
    labeller is given the values, not the returns. *)
Theorem returned_table_is_the_labellers (X : externals)
    (data : gmap string (list (num X))) (column_name : string) (L W : Z)
    (sel : selection) (num_bin padding_RP : Z)
    (std_RP std_GASF std_GADF use_returns : bool)
    labelled_pd price_at_image images image_labels label_names :
  result (data_to_labelled_img X data column_name L W sel num_bin padding_RP
            std_RP std_GASF std_GADF use_returns)
  = Ok (RetTuple labelled_pd price_at_image images image_labels label_names) ->
  exists series,
    data !! column_name = Some series /\
    local_min_max X series L = Ok labelled_pd.
Proof.
  intros Hres.
  apply returns_inv in Hres as (_ & _ & _ & locals & Hprep & _).
  apply prepare_inv in Hprep as (series & Hdata & Hlab & _).
  exists series. split; assumption.
Qed.

Lemma returned_table_witness :
  exists series,
    Demo.frame_of (Demo.ramp 8) !! "Series" = Some series /\
    local_min_max Demo.W3 series 3 = Ok Demo.returns_labelled.
Proof.
  apply (returned_table_is_the_labellers Demo.W3 (Demo.frame_of (Demo.ramp 8))
           "Series" 3 3 (Lst ["RP"; "GASF"; "MTF"]) 4 1 false false false true
           Demo.returns_labelled Demo.returns_price Demo.returns_images
           Demo.returns_labels fixed_label_names).
  reflexivity.
Defined.

(** On either basis, for an odd label window of at least 3 that fits the
    table: the prices and the labels returned are the rows of the labelled
    table from the slice start ([W-1] on the price basis, [W] on the returns
    basis) up to, not including, [N - floor(L/2)]. *)
Theorem slices_are_ranges_of_the_table (X : externals)
    (data : gmap string (list (num X))) (column_name : string) (L W : Z)
    (sel : selection) (num_bin padding_RP : Z)
    (std_RP std_GASF std_GADF use_returns : bool)
    labelled_pd price_at_image images image_labels label_names :
  3 <= L -> Z.odd L = true -> np_ceil (true_div2 L) <= W ->
  L <= Z.of_nat (length labelled_pd) ->
  result (data_to_labelled_img X data column_name L W sel num_bin padding_RP
            std_RP std_GASF std_GADF use_returns)
  = Ok (RetTuple labelled_pd price_at_image images image_labels label_names) ->
  let lo := Z.to_nat (if use_returns then W else W - 1) in
  let hi := (length labelled_pd - Z.to_nat (L / 2))%nat in
  price_at_image = reshape_column (range_of (map fst labelled_pd) lo hi) /\
  image_labels =
    {| ncols := 3; arows := range_of (map one_hot (map snd labelled_pd)) lo hi |}.
Proof.
  intros HL Hodd HW HN Hres lo hi.
  destruct (odd_window_bounds L ltac:(lia) Hodd) as (Hh & Hceil & HLh).
  apply returns_inv in Hres as (_ & _ & _ & locals & Hprep & _).
  apply prepare_inv in Hprep as (series & _ & _ & _ & _ & -> & -> & _).
  rewrite half_window_nonneg in * by lia.
  unfold slice_stop. rewrite half_window_nonneg by lia.
  assert (0 <= slice_start use_returns W) as Hstart.
  { unfold slice_start. destruct use_returns; lia. }
  rewrite !py_slice_negative_stop; rewrite ?length_map; try lia.
  split; reflexivity.
Qed.

Lemma slices_are_ranges_witness :
  Demo.returns_price =
    reshape_column (range_of (map fst Demo.returns_labelled) 3 7) /\
  Demo.returns_labels =
    {| ncols := 3;
       arows := range_of (map one_hot (map snd Demo.returns_labelled)) 3 7 |}.
Proof.
  apply (slices_are_ranges_of_the_table Demo.W3 (Demo.frame_of (Demo.ramp 8))
           "Series" 3 3 (Lst ["RP"; "GASF"; "MTF"]) 4 1 false false false true
           Demo.returns_labelled Demo.returns_price Demo.returns_images
           Demo.returns_labels fixed_label_names);
    try reflexivity; vm_compute; discriminate.
Defined.

(** Row by row, the prices and the labels returned come from the same row
    of the labelled table: there is an offset [k] such that row [i] of
    [price_at_image] is the value of table row [k + i] and row [i] of
    [image_labels] is the encoding of the label of that same table row.
    This holds for every call that returns, whatever the windows. *)
Theorem prices_and_labels_share_their_rows (X : externals)
    (data : gmap string (list (num X))) (column_name : string) (L W : Z)
    (sel : selection) (num_bin padding_RP : Z)
    (std_RP std_GASF std_GADF use_returns : bool)
    labelled_pd price_at_image images image_labels label_names :
  result (data_to_labelled_img X data column_name L W sel num_bin padding_RP
            std_RP std_GASF std_GADF use_returns)
  = Ok (RetTuple labelled_pd price_at_image images image_labels label_names) ->
  exists k,
    forall i, (i < length (arows price_at_image))%nat ->
      exists value label,
        labelled_pd !! (k + i)%nat = Some (value, label) /\
        arows price_at_image !! i = Some [value] /\
        arows image_labels !! i = Some (one_hot label).
Proof.
  intros Hres.
  apply returns_inv in Hres as (_ & _ & _ & locals & Hprep & _).
  apply prepare_inv in Hprep as (series & _ & _ & _ & _ & -> & -> & _).
  cbn [arows reshape_column].
  rewrite <- map_map, !py_slice_map.
  set (rows := py_slice labelled_pd (slice_start use_returns W) (slice_stop L)).
  exists (Z.to_nat (clamp_index (Z.of_nat (length labelled_pd))
                      (slice_start use_returns W))).
  intros i Hi. rewrite !length_map in Hi.
  destruct (lookup_lt_is_Some_2 rows i Hi) as [[value label] Hrow].
  exists value, label. split; [now apply py_slice_lookup in Hrow |].
  rewrite !list_lookup_fmap, Hrow. split; reflexivity.
Qed.

Lemma prices_and_labels_witness :
  exists k,
    forall i, (i < length (arows Demo.returns_price))%nat ->
      exists value label,
        Demo.returns_labelled !! (k + i)%nat = Some (value, label) /\
        arows Demo.returns_price !! i = Some [value] /\
        arows Demo.returns_labels !! i = Some (one_hot label).
Proof.
  apply (prices_and_labels_share_their_rows Demo.W3 (Demo.frame_of (Demo.ramp 8))
           "Series" 3 3 (Lst ["RP"; "GASF"; "MTF"]) 4 1 false false false true
           Demo.returns_labelled Demo.returns_price Demo.returns_images
           Demo.returns_labels fixed_label_names).
  reflexivity.
Defined.

Lemma one_hot_count (label : string) :
  length (one_hot label) = 3%nat /\
  count_true (one_hot label) = if existsb (String.eqb label) label_order then 1%nat else 0%nat.
Proof.
  unfold one_hot, count_true, label_order. simpl.
  destruct (String.eqb_spec label "Sell") as [-> | ?]; [split; reflexivity |].
  destruct (String.eqb_spec label "Buy") as [-> | ?]; [split; reflexivity |].
  destruct (String.eqb_spec label "Hold") as [-> | ?]; split; reflexivity.
Qed.

(** The shapes and the rows of the two arrays of every call that returns:
    [price_at_image] is one column wide and [image_labels] three, also when
    they have no rows; each row of labels holds three entries of which at
    most one is [True], and each row of prices one value. *)
Theorem label_rows_hold_at_most_one_true (X : externals)
    (data : gmap string (list (num X))) (column_name : string) (L W : Z)
    (sel : selection) (num_bin padding_RP : Z)
    (std_RP std_GASF std_GADF use_returns : bool)
    labelled_pd price_at_image images image_labels label_names :
  result (data_to_labelled_img X data column_name L W sel num_bin padding_RP
            std_RP std_GASF std_GADF use_returns)
  = Ok (RetTuple labelled_pd price_at_image images image_labels label_names) ->
  (ncols price_at_image = 1%nat /\ ncols image_labels = 3%nat) /\
  (forall row, In row (arows image_labels) ->
     length row = 3%nat /\ (count_true row <= 1)%nat) /\
  (forall row, In row (arows price_at_image) -> length row = 1%nat).
Proof.
  intros Hres.
  apply returns_inv in Hres as (_ & _ & _ & locals & Hprep & _).
  apply prepare_inv in Hprep as (series & _ & _ & _ & _ & -> & -> & _).
  cbn [arows ncols reshape_column]. split; [split; reflexivity |]. split.
  - intros row Hrow. apply py_slice_In, in_map_iff in Hrow as (label & <- & _).
    destruct (one_hot_count label) as [Hlen Hcount].
    split; [exact Hlen |]. rewrite Hcount.
    destruct (existsb (String.eqb label) label_order); lia.
  - intros row Hrow. apply in_map_iff in Hrow as (value & <- & _). reflexivity.
Qed.

Lemma label_rows_witness :
  (ncols Demo.returns_price = 1%nat /\ ncols Demo.returns_labels = 3%nat) /\
  (forall row, In row (arows Demo.returns_labels) ->
     length row = 3%nat /\ (count_true row <= 1)%nat) /\
  (forall row, In row (arows Demo.returns_price) -> length row = 1%nat).
Proof.
  apply (label_rows_hold_at_most_one_true Demo.W3 (Demo.frame_of (Demo.ramp 8))
           "Series" 3 3 (Lst ["RP"; "GASF"; "MTF"]) 4 1 false false false true
           Demo.returns_labelled Demo.returns_price Demo.returns_images
           Demo.returns_labels fixed_label_names).
  reflexivity.
Defined.

(** ** The returns *)

Lemma py_slice_from_one {A : Type} (l : list A) : py_slice_from l 1 = drop 1 l.
Proof.
  unfold py_slice_from, py_slice, clamp_index.
  change (1 <? 0) with false.
  destruct (Z.ltb_spec (Z.of_nat (length l)) 0); [lia |].
  rewrite (Z.min_r (Z.of_nat (length l))) by lia.
  destruct l as [| x l]; [reflexivity |].
  rewrite Z.min_l by (simpl length; lia).
  change (Z.to_nat 1) with 1%nat.
  apply firstn_all2. rewrite length_skipn. simpl length. lia.
Qed.

Lemma py_slice_to_minus_one {A : Type} (l : list A) :
  py_slice_to l (-1) = take (length l - 1) l.
Proof.
  unfold py_slice_to, py_slice, clamp_index.
  change (-1 <? 0) with true. change (0 <? 0) with false.
  replace (Z.min 0 (Z.of_nat (length l))) with 0 by lia.
  change (Z.to_nat 0) with 0%nat. cbn [skipn].
  f_equal. lia.
Qed.

(** Line 115: return [i] is made from value [i + 1] and value [i], the
    later one divided by the earlier one; there is one return fewer than
    there are values, and none for a series of one value or none. *)
Theorem return_series_pairs_neighbours (X : externals) (series : list (num X))
    (i : nat) :
  return_series X series !! i =
  match series !! S i, series !! i with
  | Some later, Some earlier => Some (simple_return X later earlier)
  | _, _ => None
  end.
Proof.
  unfold return_series.
  rewrite lookup_zip_with, py_slice_from_one, py_slice_to_minus_one, lookup_drop.
  change (1 + i)%nat with (S i).
  destruct (series !! S i) as [later |] eqn:Hlater; [| reflexivity].
  cbn [mbind option_bind].
  pose proof (lookup_lt_Some _ _ _ Hlater) as Hlt.
  rewrite lookup_take_lt by lia.
  destruct (series !! i); reflexivity.
Qed.

Lemma label_window_one_witness :
  arows (@mkArray2 Z 1 []) = [] /\ arows (@mkArray2 bool 3 []) = [].
Proof.
  apply (label_window_one_empty Demo.W3 (Demo.frame_of (Demo.ramp 8)) "Series"
           3 (Str "GASF") 5 0 false false false false
           (Demo.label_rows Demo.cycle3 (Demo.ramp 8))
           {| ncols := 1; arows := [] |} (Single [])
           {| ncols := 3; arows := [] |} fixed_label_names).
  reflexivity.
Defined.

(** ** Failing and succeeding transforms *)

(** The dispatch fails with the first exception met in the order GASF,
    GADF, RP, MTF among the strategies the selection names, and succeeds
    when none of them raises. *)
Lemma dispatch_outcome (X : externals) (series : list (num X)) (L W : Z)
    (sel : selection) (num_bin padding_RP : Z) (std_RP std_GASF std_GADF : bool) :
  match dispatch_failure X series L W sel num_bin padding_RP std_RP std_GASF
          std_GADF with
  | Some e =>
      dispatch X series L W sel num_bin padding_RP std_RP std_GASF std_GADF
      = Raise e
  | None =>
      exists locals,
        dispatch X series L W sel num_bin padding_RP std_RP std_GASF std_GADF
        = Ok locals
  end.
Proof.
  unfold dispatch_failure, dispatch, bind_if, transform_call, known_strategies.
  cbn [map first_raise String.eqb Ascii.eqb Bool.eqb].
  destruct (sel_contains "GASF" sel);
    [destruct (GASF X _ W std_GASF); cbn [obind first_raise]; [| reflexivity] |];
    (destruct (sel_contains "GADF" sel);
     [destruct (GADF X _ W std_GADF); cbn [obind first_raise]; [| reflexivity] |]);
    (destruct (sel_contains "RP" sel);
     [destruct (RP X _ W padding_RP std_RP); cbn [obind first_raise];
      [| reflexivity] |]);
    (destruct (sel_contains "MTF" sel);
     [destruct (MTF X _ W num_bin); cbn [obind first_raise]; [| reflexivity] |]);
    eexists; reflexivity.
Qed.

(** Once the table is labelled and encoded, an exception of a transform
    ends the call, and nothing is printed. When several of the transforms
    named would raise, the exception is that of the first in the order
    GASF, GADF, RP, MTF, not in the order of the selection; it comes before
    any complaint about the selection itself. *)
Theorem transform_exception_ends_the_call (X : externals)
    (data : gmap string (list (num X))) (column_name : string) (L W : Z)
    (sel : selection) (num_bin padding_RP : Z)
    (std_RP std_GASF std_GADF use_returns : bool)
    (series : list (num X)) (labelled_pd : list (num X * string)) (e : exn) :
  window_too_small L W = false ->
  data !! column_name = Some series ->
  local_min_max X series L = Ok labelled_pd ->
  In "Sell" (map snd labelled_pd) -> In "Buy" (map snd labelled_pd) ->
  In "Hold" (map snd labelled_pd) ->
  dispatch_failure X (imaging_series X use_returns series) L W sel num_bin
    padding_RP std_RP std_GASF std_GADF = Some e ->
  data_to_labelled_img X data column_name L W sel num_bin padding_RP
    std_RP std_GASF std_GADF use_returns
  = {| stdout := []; result := Raise e |}.
Proof.
  intros Hguard Hdata Hlab Hs Hb Hh Hfail.
  pose proof (dispatch_outcome X (imaging_series X use_returns series) L W sel
                num_bin padding_RP std_RP std_GASF std_GADF) as Hdis.
  rewrite Hfail in Hdis.
  unfold data_to_labelled_img, prepare. unfold imaging_series in Hdis.
  rewrite Hguard, Hdata. cbn [obind]. rewrite Hlab. cbn [obind].
  rewrite (encode_labels_ok _ Hs Hb Hh). cbn [obind]. rewrite Hdis.
  reflexivity.
Qed.

Lemma transform_exception_witness :
  data_to_labelled_img Demo.broken (Demo.frame_of (Demo.ramp 8)) "Series" 3 3
    (Lst ["FOO"; "MTF"; "GASF"]) 5 0 false false false false
  = {| stdout := []; result := Raise (ExternalError "GASF") |}.
Proof.
  apply (transform_exception_ends_the_call Demo.broken _ _ _ _ _ _ _ _ _ _ _
           (Demo.ramp 8) (Demo.label_rows Demo.cycle3 (Demo.ramp 8)));
    try reflexivity; vm_compute; tauto.
Defined.

Lemma dispatch_single (X : externals) (series : list (num X)) (L W : Z)
    (s : string) (num_bin padding_RP : Z) (std_RP std_GASF std_GADF : bool)
    (a : list (list (list (pixel X)))) :
  is_known s = true ->
  transform_call X series L W num_bin padding_RP std_RP std_GASF std_GADF s
    = Ok a ->
  dispatch X series L W (Str s) num_bin padding_RP std_RP std_GASF std_GADF
  = Ok (<[image_var s := a]> ∅).
Proof.
  intros Hs. apply is_known_In in Hs. unfold known_strategies in Hs.
  simpl in Hs. unfold transform_call, dispatch, bind_if.
  destruct Hs as [<- | [<- | [<- | [<- | []]]]];
    cbn [String.eqb Ascii.eqb Bool.eqb]; intros Hcall;
    vm_compute sel_contains; rewrite Hcall; reflexivity.
Qed.

(** One known strategy named by a string: when the guard is passed, the
    column exists, the labeller returns a table in which Sell, Buy and Hold
    each occur, and the transform of that strategy returns, the call
    returns its five results: the table, the sliced prices, the transform's
    images as they are, the sliced labels and the fixed label map. No other
    transform has a part in it. *)
Theorem single_strategy_call_returns (X : externals)
    (data : gmap string (list (num X))) (column_name : string) (L W : Z)
    (s : string) (num_bin padding_RP : Z)
    (std_RP std_GASF std_GADF use_returns : bool)
    (series : list (num X)) (labelled_pd : list (num X * string))
    (a : list (list (list (pixel X)))) :
  window_too_small L W = false ->
  data !! column_name = Some series ->
  local_min_max X series L = Ok labelled_pd ->
  In "Sell" (map snd labelled_pd) -> In "Buy" (map snd labelled_pd) ->
  In "Hold" (map snd labelled_pd) ->
  is_known s = true ->
  transform_call X (imaging_series X use_returns series) L W num_bin padding_RP
    std_RP std_GASF std_GADF s = Ok a ->
  data_to_labelled_img X data column_name L W (Str s) num_bin padding_RP
    std_RP std_GASF std_GADF use_returns
  = {| stdout := [];
       result :=
         Ok (RetTuple labelled_pd
               (reshape_column
                  (py_slice (map fst labelled_pd) (slice_start use_returns W)
                     (slice_stop L)))
               (Single a)
               {| ncols := 3;
                  arows := py_slice (map one_hot (map snd labelled_pd))
                             (slice_start use_returns W) (slice_stop L) |}
               fixed_label_names) |}.
Proof.
  intros Hguard Hdata Hlab Hs Hb Hh Hknown Hcall.
  pose proof (dispatch_single X _ L W s num_bin padding_RP std_RP std_GASF
                std_GADF a Hknown Hcall) as Hdis.
  unfold data_to_labelled_img.
  rewrite Hguard, (prepare_ok X _ _ _ _ _ _ _ _ _ _ _ _ _ _
                     Hdata Hlab Hs Hb Hh Hdis).
  assert ((sel_len (Str s) =? 0) = false) as ->.
  { apply Z.eqb_neq. destruct s; [discriminate Hknown | simpl; lia]. }
  f_equal. cbn [assemble_images].
  rewrite (eval_images_plain X _ s)
    by (apply known_strategy_plain; now apply is_known_In).
  rewrite lookup_insert_eq. reflexivity.
Qed.

Lemma single_strategy_witness :
  result (data_to_labelled_img Demo.broken (Demo.frame_of (Demo.ramp 8))
            "Series" 3 3 (Str "GADF") 5 0 false false false true)
  = Ok (@RetTuple Demo.broken (Demo.label_rows Demo.cycle3 (Demo.ramp 8))
          {| ncols := 1; arows := [[4]; [5]; [6]; [7]] |}
          (@Single Demo.broken
             (map (Demo.outer Z.sub) (Demo.sliding 3 [1; 1; 1; 1; 1; 1])))
          {| ncols := 3;
             arows := [[true; false; false]; [false; true; false];
                       [false; false; true]; [true; false; false]] |}
          fixed_label_names).
Proof.
  rewrite (single_strategy_call_returns Demo.broken
             (Demo.frame_of (Demo.ramp 8)) "Series" 3 3 "GADF" 5 0
             false false false true (Demo.ramp 8)
             (Demo.label_rows Demo.cycle3 (Demo.ramp 8))
             (map (Demo.outer Z.sub) (Demo.sliding 3 [1; 1; 1; 1; 1; 1])));
    try reflexivity; vm_compute; tauto.
Defined.

Lemma dispatch_failure_none (X : externals) (series : list (num X)) (L W : Z)
    (sel : selection) (num_bin padding_RP : Z) (std_RP std_GASF std_GADF : bool) :
  (forall s, In s known_strategies -> sel_contains s sel = true ->
     exists a, transform_call X series L W num_bin padding_RP std_RP std_GASF
                 std_GADF s = Ok a) ->
  dispatch_failure X series L W sel num_bin padding_RP std_RP std_GASF std_GADF
  = None.
Proof.
  intros Hall. unfold dispatch_failure.
  assert (forall s rest, In s known_strategies ->
            first_raise
              ((sel_contains s sel,
                transform_call X series L W num_bin padding_RP std_RP std_GASF
                  std_GADF s) :: rest)
            = first_raise rest) as Hstep.
  { intros s rest Hs. cbn [first_raise].
    destruct (sel_contains s sel) eqn:Hsel; [| reflexivity].
    destruct (Hall s Hs Hsel) as [a ->]. reflexivity. }
  unfold known_strategies in *. cbn [map].
  rewrite !Hstep by (simpl; tauto). reflexivity.
Qed.

Lemma Forall2_functional {A B : Type} (f : A -> outcome B) (l : list A)
    (k k' : list B) :
  Forall2 (fun x y => f x = Ok y) l k ->
  Forall2 (fun x y => f x = Ok y) l k' -> k = k'.
Proof.
  intros Hk. revert k'. induction Hk as [| x y l k Hxy _ IH]; intros k' Hk'.
  - now inversion Hk'.
  - inversion Hk' as [| ? y' ? k'' Hxy' Hrest]; subst.
    rewrite Hxy in Hxy'. injection Hxy' as <-. f_equal. now apply IH.
Qed.

(** Two known strategies or more, named in a list: when the guard is
    passed, the column exists, the labeller returns a table in which Sell,
    Buy and Hold each occur, and the transforms of the strategies named
    return arrays of one common shape, the call returns its five results,
    the images being the arrays of the strategies stacked along a last axis
    in the order of the list. A transform that the list does not name has
    no part in it. *)
Theorem strategy_list_call_returns (X : externals)
    (data : gmap string (list (num X))) (column_name : string) (L W : Z)
    (l : list string) (num_bin padding_RP : Z)
    (std_RP std_GASF std_GADF use_returns : bool)
    (series : list (num X)) (labelled_pd : list (num X * string))
    (arrays : list (list (list (list (pixel X))))) (n : nat) (hw : nat * nat) :
  window_too_small L W = false ->
  data !! column_name = Some series ->
  local_min_max X series L = Ok labelled_pd ->
  In "Sell" (map snd labelled_pd) -> In "Buy" (map snd labelled_pd) ->
  In "Hold" (map snd labelled_pd) ->
  (2 <= length l)%nat ->
  forallb is_known l = true ->
  Forall2 (fun s a =>
             transform_call X (imaging_series X use_returns series) L W num_bin
               padding_RP std_RP std_GASF std_GADF s = Ok a) l arrays ->
  Forall (well_shaped n hw) arrays ->
  data_to_labelled_img X data column_name L W (Lst l) num_bin padding_RP
    std_RP std_GASF std_GADF use_returns
  = {| stdout := [];
       result :=
         Ok (RetTuple labelled_pd
               (reshape_column
                  (py_slice (map fst labelled_pd) (slice_start use_returns W)
                     (slice_stop L)))
               (Stacked (moveaxis_first_to_last arrays))
               {| ncols := 3;
                  arows := py_slice (map one_hot (map snd labelled_pd))
                             (slice_start use_returns W) (slice_stop L) |}
               fixed_label_names) |}.
Proof.
  intros Hguard Hdata Hlab Hs Hb Hh Hmany Hknown Hcalls Hwell.
  rewrite forallb_forall in Hknown.
  pose proof (dispatch_outcome X (imaging_series X use_returns series) L W
                (Lst l) num_bin padding_RP std_RP std_GASF std_GADF) as Hdis.
  rewrite dispatch_failure_none in Hdis.
  2: { intros s _ Hsel. cbn [sel_contains] in Hsel.
       apply existsb_exists in Hsel as (t & Ht & Heq).
       apply String.eqb_eq in Heq. subst t.
       apply list_elem_of_In, list_elem_of_lookup in Ht as [i Hi].
       destruct (Forall2_lookup_l _ _ _ _ _ Hcalls Hi) as (a & _ & Ha).
       now exists a. }
  destruct Hdis as [locals Hdis].
  destruct (loop_collects_known X _ _ _ _ _ _ _ _ _ _ Hdis l)
    as (arrays' & Hloop & Hcalls').
  { intros s Hin. split; [now apply Hknown | now apply sel_contains_list]. }
  assert (arrays' = arrays) as -> by (eapply Forall2_functional; eassumption).
  unfold data_to_labelled_img.
  rewrite Hguard, (prepare_ok X _ _ _ _ _ _ _ _ _ _ _ _ _ _
                     Hdata Hlab Hs Hb Hh Hdis).
  assert ((sel_len (Lst l) =? 0) = false) as ->.
  { apply Z.eqb_neq. simpl. lia. }
  f_equal. cbn [assemble_images].
  destruct (Z.ltb_spec 1 (sel_len (Lst l))) as [_ | Hone];
    [| simpl in Hone; lia].
  rewrite Hloop. cbn [obind].
  destruct arrays as [| a rest].
  { apply Forall2_length in Hcalls. simpl in Hcalls. lia. }
  rewrite (np_stack_well_shaped X n hw a rest Hwell). reflexivity.
Qed.

Lemma strategy_list_witness :
  data_to_labelled_img Demo.broken (Demo.frame_of (Demo.ramp 8)) "Series" 3 3
    (Lst ["RP"; "GADF"; "RP"]) 5 1 false false false false
  = {| stdout := [];
       result :=
         Ok (@RetTuple Demo.broken (Demo.label_rows Demo.cycle3 (Demo.ramp 8))
               {| ncols := 1; arows := [[3]; [4]; [5]; [6]; [7]] |}
               (@Stacked Demo.broken
                  (moveaxis_first_to_last
                     (let windows := Demo.sliding 3 [1; 2; 3; 4; 5; 6; 7] in
                      let rp := map (fun w => Demo.pad 1
                                       (Demo.outer Z.mul (Demo.steps w)))
                                  windows in
                      [rp; map (Demo.outer Z.sub) windows; rp])))
               {| ncols := 3;
                  arows := [[false; false; true]; [true; false; false];
                            [false; true; false]; [false; false; true];
                            [true; false; false]] |}
               fixed_label_names) |}.
Proof.
  rewrite (strategy_list_call_returns Demo.broken
             (Demo.frame_of (Demo.ramp 8)) "Series" 3 3 ["RP"; "GADF"; "RP"]
             5 1 false false false false (Demo.ramp 8)
             (Demo.label_rows Demo.cycle3 (Demo.ramp 8))
             (let windows := Demo.sliding 3 [1; 2; 3; 4; 5; 6; 7] in
              let rp := map (fun w => Demo.pad 1
                               (Demo.outer Z.mul (Demo.steps w))) windows in
              [rp; map (Demo.outer Z.sub) windows; rp])
             5%nat (3%nat, 3%nat)).
  - reflexivity.
  - reflexivity.
  - reflexivity.
  - reflexivity.
  - vm_compute. tauto.
  - vm_compute. tauto.
  - vm_compute. tauto.
  - simpl. lia.
  - reflexivity.
  - repeat constructor.
  - repeat constructor.
Defined.

Lemma stacked_channels_witness :
  exists t,
    Demo.returns_images = Stacked t /\
    forall ch s, ["RP"; "GASF"; "MTF"] !! ch = Some s ->
      exists a,
        transform_call Demo.W3 (return_series Demo.W3 (Demo.ramp 8)) 3 3 4 1
          false false false s = Ok a /\
        forall i r c p, entry3 a i r c = Some p ->
          exists v, entry3 t i r c = Some v /\ v !! ch = Some p /\
                    length v = 3%nat.
Proof.
  apply (stacked_channels Demo.W3 (Demo.frame_of (Demo.ramp 8)) "Series" 3 3
           4 1 false false false true (Demo.ramp 8) eq_refl
           ["RP"; "GASF"; "MTF"] 4%nat (3%nat, 3%nat)
           Demo.returns_labelled Demo.returns_price Demo.returns_images
           Demo.returns_labels fixed_label_names).
  - reflexivity.
  - intros s a [<- | [<- | [<- | []]]] Hcall;
      vm_compute in Hcall; injection Hcall as <-; split; reflexivity.
  - reflexivity.
Defined.
